(** * bandersnatch.master: the connection to the package index

    A shallow embedding of [src/bandersnatch/master.py], and of [async_main]
    of [src/bandersnatch/main.py], which drives it.  Python values are
    modelled as follows: [int] as [Z], [float] as the primitive binary64
    [float], [str] as [string], [None]-able arguments as [option], a [dict]
    as a [gmap], exceptions as the values of [exn], and [async] methods as
    computations of the monad [M], which threads the log written through
    the [logging] module and the trace of requests issued on the session. *)

From Stdlib Require Import ZArith String Ascii List Permutation.
From Stdlib Require Import Floats.
From stdpp Require Import gmap strings list pretty.

Local Open Scope string_scope.
Local Open Scope list_scope.
Local Open Scope Z_scope.

(** ** Module constants *)

(** [FIVE_HOURS_FLOAT = 5 * 60 * 60.0]; the integer factors convert to
    floats exactly. *)
Definition FIVE_HOURS_FLOAT : float := (5 * 60 * 60.0)%float.

Definition PYPI_SERIAL_HEADER : string := "X-PYPI-LAST-SERIAL".

(** ** Exceptions *)

Inductive exn : Type :=
| ValueError (msg : string)
| StalePage (msg : string)
| XmlRpcError (msg : string)
| PackageNotFound (package_name : string)
| TimeoutError (msg : string)
| ClientResponseError (status : Z) (msg : string)
| ClientConnectionError (msg : string)
| XmlRpcFault (code : Z) (msg : string)
| RuntimeError (msg : string).

(** ** Python built-ins used by the module *)

(** Truth value of an [int | None]: [None] and [0] are falsy. *)
Definition truthy_int (x : option Z) : bool :=
  match x with
  | None => false
  | Some n => negb (n =? 0)
  end.

(** Truth value of a [str | None]: [None] and the empty string are falsy. *)
Definition truthy_str (x : option string) : bool :=
  match x with
  | None | Some "" => false
  | Some _ => true
  end.

(** Truth value of a [float | None]: [None] and zero (of either sign) are
    falsy; every other float, NaN included, is truthy. *)
Definition truthy_float (x : option float) : bool :=
  match x with
  | None => false
  | Some f => negb (f =? 0)%float
  end.

(** [str(x)] as an f-string renders an [int] and an [int | None]. *)
Definition str_int (n : Z) : string := pretty n.

Definition str_opt_int (x : option Z) : string :=
  match x with
  | None => "None"
  | Some n => str_int n
  end.

(** [s.startswith(p)]. *)
Definition startswith (s p : string) : bool := String.prefix p s.

(** [int(s)] on a string of ASCII characters: surrounding white space
    (tab, line feed, vertical tab, form feed, carriage return, space) is
    dropped, one sign is allowed, and the digits may be grouped by single
    underscores.  [None] stands for the [ValueError] Python raises.  The
    decimal digits and white space outside ASCII that [int] also reads, and
    the interpreter's limit on the number of digits, are not part of it. *)
Definition is_space (c : ascii) : bool :=
  let n := N_of_ascii c in
  ((9 <=? n) && (n <=? 13) || (n =? 32))%N.

Definition digit_of (c : ascii) : option Z :=
  let n := N_of_ascii c in
  if ((48 <=? n) && (n <=? 57))%N then Some (Z.of_N n - 48) else None.

Fixpoint lstrip (s : list ascii) : list ascii :=
  match s with
  | c :: s' => if is_space c then lstrip s' else s
  | [] => []
  end.

Definition strip (s : list ascii) : list ascii :=
  rev (lstrip (rev (lstrip s))).

Fixpoint int_digits (acc : Z) (after_digit : bool) (s : list ascii)
  : option Z :=
  match s with
  | [] => if after_digit then Some acc else None
  | c :: s' =>
      match digit_of c with
      | Some d => int_digits (10 * acc + d) true s'
      | None =>
          if Ascii.eqb c "_" && after_digit then int_digits acc false s'
          else None
      end
  end.

Definition int_of_str (s : string) : option Z :=
  match strip (list_ascii_of_string s) with
  | c :: s' =>
      if Ascii.eqb c "-" then Z.opp <$> int_digits 0 false s'
      else if Ascii.eqb c "+" then int_digits 0 false s'
      else int_digits 0 false (c :: s')
  | [] => None
  end.

(** [repr(s)] of a string of ASCII characters: between single quotes,
    or between double quotes when the string holds a single quote and no
    double quote; the backslash and the enclosing quote are escaped, tab,
    line feed and carriage return are written [\t], [\n], [\r], and any
    other control character as [\x] and two hexadecimal digits. *)
Definition backslash : ascii := ascii_of_N 92.
Definition double_quote : ascii := ascii_of_N 34.
Definition single_quote : ascii := ascii_of_N 39.

Fixpoint contains_char (c : ascii) (s : string) : bool :=
  match s with
  | EmptyString => false
  | String c' s' => Ascii.eqb c c' || contains_char c s'
  end.

Definition hex_digit (n : N) : ascii :=
  if (n <? 10)%N then ascii_of_N (48 + n) else ascii_of_N (87 + n).

Definition repr_char (quote c : ascii) : string :=
  let n := N_of_ascii c in
  if Ascii.eqb c backslash then String backslash (String backslash "")
  else if Ascii.eqb c quote then String backslash (String quote "")
  else if (n =? 9)%N then String backslash "t"
  else if (n =? 10)%N then String backslash "n"
  else if (n =? 13)%N then String backslash "r"
  else if ((n <? 32) || (n =? 127))%N then
    String backslash
      (String "x" (String (hex_digit (n / 16)) (String (hex_digit (n mod 16)) "")))
  else String c "".

Fixpoint repr_chars (quote : ascii) (s : string) : string :=
  match s with
  | EmptyString => String quote ""
  | String c s' => repr_char quote c +:+ repr_chars quote s'
  end.

Definition repr_str (s : string) : string :=
  let quote :=
    if contains_char single_quote s && negb (contains_char double_quote s)
    then double_quote else single_quote in
  String quote (repr_chars quote s).

(** ** Response headers

    [aiohttp] exposes the headers as a case-insensitive multi-dict: a key
    matches whatever its letter case, and indexing gives the first value
    stored under the key. *)
Definition lower (c : ascii) : ascii :=
  let n := N_of_ascii c in
  if ((65 <=? n) && (n <=? 90))%N then ascii_of_N (n + 32) else c.

Fixpoint lower_str (s : string) : string :=
  match s with
  | EmptyString => EmptyString
  | String c s' => String (lower c) (lower_str s')
  end.

Definition Headers : Type := list (string * string).

Fixpoint header_get (key : string) (h : Headers) : option string :=
  match h with
  | [] => None
  | (k, v) :: h' =>
      if String.eqb (lower_str k) (lower_str key) then Some v
      else header_get key h'
  end.

(** ** The remote side

    What the index answers on the wire.  A request either gets a reply or
    fails in transport; the transport failures are the ones the HTTP client
    library turns into exceptions. *)
Inductive failure : Type :=
| TimedOut (msg : string)
| ConnectionFailed (msg : string)
| Fault (code : Z) (msg : string).

Inductive outcome (A : Type) : Type :=
| Replied (a : A)
| Failed (f : failure).
Arguments Replied {A} a.
Arguments Failed {A} f.

Definition exn_of_failure (f : failure) : exn :=
  match f with
  | TimedOut msg => TimeoutError msg
  | ConnectionFailed msg => ClientConnectionError msg
  | Fault code msg => XmlRpcFault code msg
  end.

#[local] Unset Elimination Schemes.
Inductive json : Type :=
| JNull
| JBool (b : bool)
| JNum (n : Z)
| JStr (s : string)
| JArr (items : list json)
| JObj (members : list (string * json)).
#[local] Set Elimination Schemes.

(** The body of a response as [response.json()] sees it. *)
Inductive body : Type :=
| JsonBody (doc : json)
| WrongContentType (ctype : string)
| MalformedJson (msg : string).

Record ClientResponse : Type := {
  status : Z;
  reason : string;
  headers : Headers;
  content : body
}.

(** Keyword arguments forwarded by [get] to the session, in the order
    given; the values are [None], booleans, numbers and strings. *)
Inductive kwvalue : Type :=
| KwNone
| KwBool (b : bool)
| KwInt (n : Z)
| KwFloat (f : float)
| KwStr (s : string).

Definition Kwargs : Type := list (string * kwvalue).

Fixpoint kw_get (key : string) (kw : Kwargs) : option kwvalue :=
  match kw with
  | [] => None
  | (k, v) :: kw' => if String.eqb k key then Some v else kw_get key kw'
  end.

(** Truth value of a keyword value other than [None]. *)
Definition truthy_kw (v : kwvalue) : bool :=
  match v with
  | KwNone => false
  | KwBool b => b
  | KwInt n => negb (n =? 0)
  | KwFloat f => negb (f =? 0)%float
  | KwStr s => negb (String.eqb s "")
  end.

(** One row of the changelog:
    [(package, version, time, action, serial)]. *)
Definition ChangelogEntry : Type :=
  (string * option string * Z * string * Z)%type.

(** ** The monad of the module's methods *)

Inductive level : Type := DEBUG | INFO | ERROR.

Record world : Type := World {
  log : list (level * string);
  requests : list (string * Kwargs)
}.

Inductive result (A : Type) : Type :=
| Return (a : A)
| Raise (e : exn).
Arguments Return {A} a.
Arguments Raise {A} e.

Definition M (A : Type) : Type := world -> result A * world.

Definition ret {A} (a : A) : M A := fun w => (Return a, w).

Definition raise {A} (e : exn) : M A := fun w => (Raise e, w).

Definition bind {A B} (m : M A) (k : A -> M B) : M B :=
  fun w =>
    match m w with
    | (Return a, w') => k a w'
    | (Raise e, w') => (Raise e, w')
    end.

(** [try: m except ...: h e]; the handler sees every exception and
    re-raises the ones its [except] clause does not match. *)
Definition try_except {A} (m : M A) (h : exn -> M A) : M A :=
  fun w =>
    match m w with
    | (Return a, w') => (Return a, w')
    | (Raise e, w') => h e w'
    end.

Notation "'let*' x ':=' m 'in' k" := (bind m (fun x => k))
  (at level 10, x name, m at level 100, k at level 200).
Notation "'do' m 'then' k" := (bind m (fun _ => k))
  (at level 10, m at level 100, k at level 200).

Definition logging (lv : level) (msg : string) : M unit :=
  fun w => (Return tt, World (log w ++ [(lv, msg)]) (requests w)).

Definition record_request (url : string) (kw : Kwargs) : M unit :=
  fun w => (Return tt, World (log w) (requests w ++ [(url, kw)])).

(** What a computation returns or raises, and the world it leaves. *)
Definition outcome_of {A} (m : M A) (w : world) : result A := fst (m w).
Definition world_after {A} (m : M A) (w : world) : world := snd (m w).

(** [await] on a remote call: the reply, or the exception of the failure. *)
Definition await {A} (o : outcome A) : M A :=
  match o with
  | Replied a => ret a
  | Failed f => raise (exn_of_failure f)
  end.

(** An expression without effects, evaluated inside a method. *)
Definition lift {A} (r : result A) : M A := fun w => (r, w).

(** [int(s)]: [ValueError] on a string that is no integer literal; the
    message shows the string as [repr] does. *)
Definition py_int (s : string) : result Z :=
  match int_of_str s with
  | Some n => Return n
  | None =>
      Raise (ValueError
               ("invalid literal for int() with base 10: " +:+ repr_str s))
  end.

(** ** class Master *)

(** An event loop of [asyncio], by its name, and what
    [asyncio.get_event_loop()] finds: the current event loop of the
    thread, or none, in which case it raises [RuntimeError]. *)
Inductive EventLoop : Type := Loop (name : string).

Inductive loop_lookup : Type :=
| CurrentLoop (current : EventLoop)
| NoCurrentLoop (msg : string).

Definition loop_result (found : loop_lookup) : result EventLoop :=
  match found with
  | CurrentLoop current => Return current
  | NoCurrentLoop msg => Raise (RuntimeError msg)
  end.

Record Master : Type := {
  url : string;
  timeout : float;
  global_timeout : float;
  allow_upstream_serial_mismatch : bool;
  proxy_kwargs : gmap string string;
  allow_non_https : bool;
  loop : EventLoop
}.

(** Default values of the keyword arguments of [__init__]. *)
Definition default_timeout : float := 10.0%float.
Definition default_global_timeout : option float := Some FIVE_HOURS_FLOAT.
Definition default_proxy : option string := None.
Definition default_allow_non_https : bool := false.
Definition default_allow_upstream_serial_mismatch : bool := false.

(** [x or d] on a [float | None]. *)
Definition or_float (x : option float) (d : float) : float :=
  match x with
  | Some f => if truthy_float x then f else d
  | None => d
  end.

Section Construction.

(** The two helpers of [bandersnatch.config.proxy], whose source is not
    part of the module: the proxy address found in the process
    environment, and the session arguments derived from an address. *)
Variable proxy_address_from_env : option string.
Variable get_aiohttp_proxy_kwargs : string -> gmap string string.

(** What [asyncio.get_event_loop()] finds in the thread that constructs
    the Master. *)
Variable get_event_loop : loop_lookup.

Definition __init__ (url : string) (timeout : float)
    (global_timeout : option float) (proxy : option string)
    (allow_non_https allow_upstream_serial_mismatch : bool) : M Master :=
  let global_timeout := or_float global_timeout FIVE_HOURS_FLOAT in
  let proxy_url := if truthy_str proxy then proxy else proxy_address_from_env in
  let proxy_kwargs :=
    match proxy_url with
    | Some a => if truthy_str proxy_url then get_aiohttp_proxy_kwargs a else ∅
    | None => ∅
    end in
  do (if bool_decide (proxy_kwargs = ∅) then ret tt
      else logging INFO ("Using proxy URL " +:+ default "None" proxy_url))
  then
  if startswith url "http://" && negb allow_non_https then
    let err := "Master URL " +:+ url +:+ " is not https scheme" in
    do logging ERROR err then
    raise (ValueError err)
  else
    let* loop := lift (loop_result get_event_loop) in
    ret {| url := url;
           timeout := timeout;
           global_timeout := global_timeout;
           allow_upstream_serial_mismatch := allow_upstream_serial_mismatch;
           proxy_kwargs := proxy_kwargs;
           allow_non_https := allow_non_https;
           loop := loop |}.

End Construction.

(** The session [__aenter__] opens from the attributes of the Master; the
    header set is left out.  The methods below are those of a Master whose
    session is open. *)
Record ClientSession : Type := {
  total : float;
  sock_connect : float;
  sock_read : float;
  raise_for_status : bool;
  session_kwargs : gmap string string
}.

Definition session (self : Master) : ClientSession :=
  {| total := global_timeout self;
     sock_connect := timeout self;
     sock_read := timeout self;
     raise_for_status := true;
     session_kwargs := proxy_kwargs self |}.

(** The text [check_for_stale_cache] puts in a [StalePage]. *)
Definition stale_page_message (required_serial : Z) (path : string)
    (got_serial : option Z) : string :=
  "Expected PyPI serial " +:+ str_int required_serial
  +:+ " for request " +:+ path +:+ " "
  +:+ "but got " +:+ str_opt_int got_serial
  +:+ ". We can no longer issue a PURGE. "
  +:+ "Report issue to PyPA Warehouse GitHub if it persists ...".

Definition check_for_stale_cache (self : Master) (path : string)
    (required_serial got_serial : option Z) : M unit :=
  match required_serial with
  | Some required =>
      if negb (truthy_int got_serial)
         || match got_serial with
            | Some got => got <? required
            | None => false
            end
      then raise (StalePage (stale_page_message required path got_serial))
      else ret tt
  | None => ret tt
  end.

Arguments check_for_stale_cache : simpl never.

Definition xmlrpc_url (self : Master) : string := url self +:+ "/pypi".

Section Http.

(** The index as an HTTP server: what it answers to a GET of a URL. *)
Variable http_server : string -> Kwargs -> outcome ClientResponse.

(** Whether a request raises on error statuses: a [raise_for_status]
    among the keyword arguments of the request, unless it is [None],
    overrides the setting of the session. *)
Definition raises_for_status (s : ClientSession) (kw : Kwargs) : bool :=
  match kw_get "raise_for_status" kw with
  | None | Some KwNone => raise_for_status s
  | Some v => truthy_kw v
  end.

(** [session.get(url, **kw)]: the request goes out; a transport failure
    is raised; when the request raises on error statuses a reply whose
    status is 400 or more is raised as [ClientResponseError]. *)
Definition session_get (s : ClientSession) (url : string) (kw : Kwargs)
  : M ClientResponse :=
  do record_request url kw then
  let* r := await (http_server url kw) in
  if raises_for_status s kw && (400 <=? status r) then
    raise (ClientResponseError (status r) (reason r))
  else ret r.

(** [response.json()]: the decoded document; a reply that is not of a
    JSON content type raises [ContentTypeError], a [ClientResponseError]
    carrying the status of the reply; undecodable text raises
    [JSONDecodeError], a [ValueError]. *)
Definition response_json (r : ClientResponse) : M json :=
  match content r with
  | JsonBody doc => ret doc
  | WrongContentType ctype =>
      raise (ClientResponseError (status r)
               ("Attempt to decode JSON with unexpected mimetype: " +:+ ctype))
  | MalformedJson msg => raise (ValueError msg)
  end.

(** The serial a response carries: the expression bound to [got_serial]
    in [get]. *)
Definition got_serial (r : ClientResponse) : result (option Z) :=
  match header_get PYPI_SERIAL_HEADER (headers r) with
  | Some v =>
      match py_int v with
      | Return n => Return (Some n)
      | Raise e => Raise e
      end
  | None => Return None
  end.

(** The URL [get] requests for [path]. *)
Definition request_path (self : Master) (path : string) : string :=
  if negb (startswith path "https://" || startswith path "http://")
  then url self +:+ path
  else path.

(** [get] up to its one [yield]. *)
Definition get (self : Master) (path : string) (required_serial : option Z)
    (kw : Kwargs) : M ClientResponse :=
  do logging DEBUG ("Getting " +:+ path +:+ " (serial "
                    +:+ str_opt_int required_serial +:+ ")") then
  let path := request_path self path in
  let* r := session_get (session self) path kw in
  let* got_serial := lift (got_serial r) in
  do check_for_stale_cache self path required_serial got_serial then
  ret r.

Definition get_package_metadata (self : Master) (package_name : string)
    (serial : Z) : M json :=
  try_except
    (let* metadata_response :=
       get self ("/pypi/" +:+ package_name +:+ "/json") (Some serial) [] in
     let* metadata := response_json metadata_response in
     ret metadata)
    (fun e =>
       match e with
       | ClientResponseError status _ =>
           if status =? 404 then raise (PackageNotFound package_name)
           else raise e
       | _ => raise e
       end).

End Http.

Section Rpc.

(** The index as an XML-RPC server: what the endpoint answers when the
    named method is called with the given arguments; [A] is the type of
    the values the method returns, [None] being a nil answer.  The method
    names are those of remote procedures, as the two the module passes;
    a name of an attribute of the client object itself, which [getattr]
    would find without any call to the remote, is not among them. *)
Context {A : Type}.
Variable xmlrpc_server : string -> string -> list Z -> outcome (option A).

Definition _gen_xmlrpc_client (self : Master)
  : string -> list Z -> outcome (option A) :=
  xmlrpc_server (xmlrpc_url self).

Definition rpc (self : Master) (method_name : string) (serial : Z)
  : M (option A) :=
  try_except
    (let client := _gen_xmlrpc_client self in
     let method := client method_name in
     if negb (serial =? 0) then await (method [serial])
     else await (method []))
    (fun e =>
       match e with
       | TimeoutError te =>
           do logging ERROR ("Call to " +:+ method_name +:+ " @ "
                             +:+ xmlrpc_url self +:+ " timed out: " +:+ te)
           then ret None
       | _ => raise e
       end).

End Rpc.

Definition all_packages
    (xmlrpc_server : string -> string -> list Z -> outcome (option (gmap string Z)))
    (self : Master) : M (gmap string Z) :=
  let* all_packages_with_serial :=
    rpc xmlrpc_server self "list_packages_with_serial" 0 in
  match all_packages_with_serial with
  | Some packages =>
      if bool_decide (packages = ∅) then
        raise (XmlRpcError "Unable to get full list of packages")
      else ret packages
  | None => raise (XmlRpcError "Unable to get full list of packages")
  end.

(** The body of the loop of [changed_packages]. *)
Definition changed_packages_step (packages : gmap string Z)
    (row : ChangelogEntry) : gmap string Z :=
  let '(package, _version, _time, _action, serial) := row in
  if serial >? default 0 (packages !! package)
  then <[package := serial]> packages
  else packages.

Definition changed_packages
    (xmlrpc_server : string -> string -> list Z -> outcome (option (list ChangelogEntry)))
    (self : Master) (last_serial : Z) : M (gmap string Z) :=
  let* changelog := rpc xmlrpc_server self "changelog_since_serial" last_serial in
  let changelog := match changelog with None => [] | Some rows => rows end in
  let packages : gmap string Z := ∅ in
  ret (foldl changed_packages_step packages changelog).

(** * Vocabulary of the statements *)

(** Stub remotes that give one fixed answer, a Master on the public index,
    a plain response with given headers and the initial world, for the
    concrete instances. *)
Definition stub_http (r : ClientResponse)
  : string -> Kwargs -> outcome ClientResponse :=
  fun _ _ => Replied r.

Definition stub_rpc {A} (answer : outcome (option A))
  : string -> string -> list Z -> outcome (option A) :=
  fun _ _ _ => answer.

Definition sample_loop : EventLoop := Loop "main".

Definition sample_master : Master :=
  {| url := "https://pypi.org";
     timeout := default_timeout;
     global_timeout := FIVE_HOURS_FLOAT;
     allow_upstream_serial_mismatch := false;
     proxy_kwargs := ∅;
     allow_non_https := false;
     loop := sample_loop |}.

Definition sample_response (hdrs : Headers) : ClientResponse :=
  {| status := 200; reason := "OK"; headers := hdrs;
     content := JsonBody (JObj []) |}.

Definition w0 : world := World [] [].

(** The world [get] leaves once the request has been issued. *)
Definition after_get (self : Master) (path : string)
    (required_serial : option Z) (kw : Kwargs) (w : world) : world :=
  World (log w ++ [(DEBUG, "Getting " +:+ path +:+ " (serial "
                           +:+ str_opt_int required_serial +:+ ")")])
        (requests w ++ [(request_path self path, kw)]).

(** The guard lets a response through exactly when no serial is required,
    or a non-zero serial at least the required one was observed. *)
Definition fresh_enough (required_serial got_serial : option Z) : Prop :=
  required_serial = None
  ∨ ∃ required got,
      required_serial = Some required ∧ got_serial = Some got
      ∧ got ≠ 0 ∧ required ≤ got.

(** A text of printable ASCII characters. *)
Fixpoint printable_ascii (s : string) : bool :=
  match s with
  | EmptyString => true
  | String c s' =>
      ((32 <=? N_of_ascii c) && (N_of_ascii c <=? 126))%N && printable_ascii s'
  end.

(** The arguments [rpc] passes to the remote method: the serial, unless it
    is 0. *)
Definition rpc_args (serial : Z) : list Z :=
  if negb (serial =? 0) then [serial] else [].

(** The error record [rpc] writes when a call times out. *)
Definition timed_out_record (self : Master) (method_name te : string)
  : level * string :=
  (ERROR, "Call to " +:+ method_name +:+ " @ " +:+ xmlrpc_url self
          +:+ " timed out: " +:+ te).

(** The package and the serial of a changelog row, the serials recorded
    for a package in a changelog, and the largest of a list of serials,
    counted from 0. *)
Definition entry_package (row : ChangelogEntry) : string :=
  let '(package, _, _, _, _) := row in package.

Definition entry_serial (row : ChangelogEntry) : Z :=
  let '(_, _, _, _, serial) := row in serial.

Definition serials_of (package : string) (changelog : list ChangelogEntry)
  : list Z :=
  entry_serial <$> filter (λ row, entry_package row = package) changelog.

Definition max0 (l : list Z) : Z := foldr Z.max 0 l.

(** A changelog with two rows for [pkg-a] and one for [pkg-b]. *)
Definition sample_changelog : list ChangelogEntry :=
  [("pkg-a", Some "1.0", 1700000000, "new release", 8);
   ("pkg-a", Some "1.1", 1700000100, "new release", 10);
   ("pkg-b", Some "1.0", 1700000200, "new release", 6)].

(** * Beyond the session: files and the command line

    [url_fetch] and [async_main] also act on the file system and call into
    other modules.  Their computations run in [IO], which adds to the world
    of [M] the trace of the file-system calls made, and to its exceptions
    those of the operating system and of the other modules. *)

Inductive io_exn : Type :=
| MasterError (e : exn)
| OSError (msg : string)
| OtherError (cls msg : string).

Inductive Executor : Type := ProcessPoolExecutor | ThreadPoolExecutor.

(** The file-system calls: [dir.mkdir(parents=True, exist_ok=True)] run in
    an executor, [path.open("wb")], [fd.write(chunk)], the closing of the
    file a [with] block ends with, and [shutil.move(src, dst)]. *)
Inductive fs_call : Type :=
| Mkdir (executor : option Executor) (dir : string)
| OpenWb (path : string)
| Write (path chunk : string)
| Close (path : string)
| Move (src dst : string).

(** The calls on the session of a Master: its creation with the settings
    of [__aenter__], [session.close()], and [asyncio.sleep(seconds)]. *)
Inductive session_call : Type :=
| OpenSession (settings : ClientSession)
| CloseSession
| Sleep (seconds : float).

Record io_world : Type := IOWorld {
  net : world;
  fs_calls : list fs_call;
  session_calls : list session_call
}.

Inductive io_result (A : Type) : Type :=
| Done (a : A)
| Failure (e : io_exn).
Arguments Done {A} a.
Arguments Failure {A} e.

Definition IO (A : Type) : Type := io_world -> io_result A * io_world.

Definition io_ret {A} (a : A) : IO A := fun s => (Done a, s).

Definition io_raise {A} (e : io_exn) : IO A := fun s => (Failure e, s).

Definition io_bind {A B} (m : IO A) (k : A -> IO B) : IO B :=
  fun s =>
    match m s with
    | (Done a, s') => k a s'
    | (Failure e, s') => (Failure e, s')
    end.

(** [try: m except ...: h e], as [try_except]. *)
Definition io_try {A} (m : IO A) (h : io_exn -> IO A) : IO A :=
  fun s =>
    match m s with
    | (Done a, s') => (Done a, s')
    | (Failure e, s') => h e s'
    end.

(** The exit of a [with] block: [cleanup] runs however [m] ended, and an
    exception of [m] is raised again after it. *)
Definition io_with {A} (m : IO A) (cleanup : IO unit) : IO A :=
  fun s =>
    match m s with
    | (Done a, s') =>
        match cleanup s' with
        | (Done _, s'') => (Done a, s'')
        | (Failure e, s'') => (Failure e, s'')
        end
    | (Failure e, s') =>
        match cleanup s' with
        | (Done _, s'') => (Failure e, s'')
        | (Failure e', s'') => (Failure e', s'')
        end
    end.

Notation "'let+' x ':=' m 'in' k" := (io_bind m (fun x => k))
  (at level 10, x name, m at level 100, k at level 200).
Notation "'run' m 'then' k" := (io_bind m (fun _ => k))
  (at level 10, m at level 100, k at level 200).

(** A method of the Master, run in [IO]. *)
Definition of_master {A} (m : M A) : IO A :=
  fun s =>
    match m (net s) with
    | (Return a, w) => (Done a, IOWorld w (fs_calls s) (session_calls s))
    | (Raise e, w) =>
        (Failure (MasterError e), IOWorld w (fs_calls s) (session_calls s))
    end.

(** The call goes into the trace of the session. *)
Definition session_do (c : session_call) : IO unit :=
  fun s =>
    (Done tt, IOWorld (net s) (fs_calls s) (session_calls s ++ [c])).

(** The value or the exception of a call into another module. *)
Definition of_result {A} (r : io_result A) : IO A := fun s => (r, s).

Definition io_outcome {A} (m : IO A) (s : io_world) : io_result A := fst (m s).
Definition io_after {A} (m : IO A) (s : io_world) : io_world := snd (m s).

(** What a [read] on the body of a response gives: bytes, the empty
    string standing for the end of the stream, or a failure of the
    transport. *)
Inductive read_event : Type :=
| Data (chunk : string)
| ReadFailed (f : failure).

Section Files.

(** The operating system: whether a file-system call fails, and with which
    message, after the calls made so far; and whether a path exists. *)
Variable os_error : list fs_call -> fs_call -> option string.
Variable path_exists : list fs_call -> string -> bool.

(** The call goes into the trace, then succeeds or raises [OSError]. *)
Definition fs_do (c : fs_call) : IO unit :=
  fun s =>
    let s' := IOWorld (net s) (fs_calls s ++ [c]) (session_calls s) in
    match os_error (fs_calls s) c with
    | Some msg => (Failure (OSError msg), s')
    | None => (Done tt, s')
    end.

Definition fs_exists (path : string) : IO bool :=
  fun s => (Done (path_exists (fs_calls s) path), s).

Section UrlFetch.

Variable http_server : string -> Kwargs -> outcome ClientResponse.

(** [file_path.parent] of [pathlib], and the results of the successive
    [response.content.read(chunk_size)] on a response. *)
Variable parent : string -> string.
Variable content_reads : ClientResponse -> Z -> list read_event.

(** The loop of [url_fetch] over the reads yet to come; a stream that has
    given all its reads is at its end. *)
Fixpoint write_chunks (file_path : string) (reads : list read_event)
  : IO unit :=
  match reads with
  | [] => io_ret tt
  | Data chunk :: reads' =>
      if String.eqb chunk "" then io_ret tt
      else run fs_do (Write file_path chunk) then
           write_chunks file_path reads'
  | ReadFailed f :: _ => io_raise (MasterError (exn_of_failure f))
  end.

Definition default_chunk_size : Z := 65536.

Definition url_fetch (self : Master) (url file_path : string)
    (executor : option Executor) (chunk_size : Z) : IO unit :=
  run of_master (logging INFO ("Fetching " +:+ url)) then
  run fs_do (Mkdir executor (parent file_path)) then
  let+ response := of_master (session_get http_server (session self) url []) in
  run fs_do (OpenWb file_path) then
  io_with (write_chunks file_path (content_reads response chunk_size))
          (fs_do (Close file_path)).

End UrlFetch.

Definition __aenter__ (self : Master) : IO Master :=
  run of_master
        (logging DEBUG "Initializing Master's aiohttp ClientSession") then
  run session_do (OpenSession (session self)) then
  io_ret self.

(** The wait of [__aexit__] is [asyncio.sleep(0.1)]; the float written
    [0.1] is the binary64 value below. *)
Definition __aexit__ (self : Master) : IO unit :=
  run of_master
        (logging DEBUG
           "Closing Master's aiohttp ClientSession and waiting 0.1 seconds")
  then
  run session_do CloseSession then
  session_do (Sleep 0x1.999999999999ap-4%float).

(** [async with m as x: body x]. *)
Definition async_with_master {A} (m : IO Master) (body : Master -> IO A)
  : IO A :=
  let+ self := m in
  let+ master := __aenter__ self in
  io_with (body master) (__aexit__ self).

(** ** main.py *)

(** The parsed command line, with the attributes [async_main] reads. *)
Record Namespace : Type := {
  op : string;
  force_check : bool;
  packages : list string;
  skip_simple_root : bool
}.

(** The configuration, as the four ways [async_main] reads it:
    [get(section, option)], [getfloat(section, option)],
    [getfloat(section, option, fallback=None)] and
    [getboolean(section, option, fallback=b)]. *)
Record ConfigParser : Type := {
  config_get : string -> string -> io_result string;
  config_getfloat : string -> string -> io_result float;
  config_getfloat_or_none : string -> string -> io_result (option float);
  config_getboolean : string -> string -> bool -> io_result bool
}.

Section Main.

Variable proxy_address_from_env : option string.
Variable get_aiohttp_proxy_kwargs : string -> gmap string string.
Variable get_event_loop : loop_lookup.

(** The modules [async_main] hands over to: [delete.delete_packages],
    [verify.metadata_verify], and [mirror.mirror], called either with the
    configuration alone ([None]) or with the packages to synchronise and
    the flag for the simple index. *)
Variable delete_packages : ConfigParser -> Namespace -> Master -> IO Z.
Variable metadata_verify : ConfigParser -> Namespace -> IO Z.
Variable mirror : ConfigParser -> option (list string * bool) -> IO Z.

(** The status file of the first storage plugin for a mirror directory,
    and the path [Path(gettempdir()) / "status"]. *)
Variable status_file_of : string -> io_result string.
Variable tmp_status_file : string.

Definition async_main (args : Namespace) (config : ConfigParser) : IO Z :=
  if String.eqb (lower_str (op args)) "delete" then
    let+ allow_upstream_serial_mismatch :=
      of_result (config_getboolean config "mirror"
                   "allow-upstream-serial-mismatch" false) in
    async_with_master
      (let+ master_url := of_result (config_get config "mirror" "master") in
       let+ timeout := of_result (config_getfloat config "mirror" "timeout") in
       let+ global_timeout :=
         of_result (config_getfloat_or_none config "mirror" "global-timeout") in
       of_master (__init__ proxy_address_from_env get_aiohttp_proxy_kwargs
                    get_event_loop master_url timeout global_timeout default_proxy
                    default_allow_non_https allow_upstream_serial_mismatch))
      (fun master => delete_packages config args master)
  else if String.eqb (lower_str (op args)) "verify" then
    metadata_verify config args
  else if String.eqb (lower_str (op args)) "sync" then
    mirror config (Some (packages args, negb (skip_simple_root args)))
  else
    run (if force_check args then
           let+ directory := of_result (config_get config "mirror" "directory") in
           let+ status_file := of_result (status_file_of directory) in
           let+ present := fs_exists status_file in
           if present then
             io_try
               (run fs_do (Move status_file tmp_status_file) then
                of_master
                  (logging DEBUG
                     ("Force bandersnatch to check everything against the master PyPI"
                      +:+ " - status file moved to " +:+ tmp_status_file)))
               (fun e =>
                  match e with
                  | OSError msg =>
                      of_master
                        (logging ERROR
                           ("Could not move status file (" +:+ status_file
                            +:+ " to " +:+ " " +:+ tmp_status_file +:+ "): "
                            +:+ msg))
                  | _ => io_raise e
                  end)
           else
             of_master
               (logging INFO
                  ("No status file to move (" +:+ status_file
                   +:+ ") - Full sync will occur"))
         else io_ret tt)
    then mirror config None.

End Main.

End Files.

(** The chunks [write_chunks] gets to write: those before the end of the
    stream or the first failed read. *)
Fixpoint delivered (reads : list read_event) : list string :=
  match reads with
  | Data chunk :: reads' =>
      if String.eqb chunk "" then [] else chunk :: delivered reads'
  | _ => []
  end.

(** The first failed read, if the stream does not end before it. *)
Fixpoint first_failure (reads : list read_event) : option failure :=
  match reads with
  | Data chunk :: reads' =>
      if String.eqb chunk "" then None else first_failure reads'
  | ReadFailed f :: _ => Some f
  | [] => None
  end.

(** The bytes written to a path, in the order of the writes. *)
Fixpoint written (path : string) (calls : list fs_call) : string :=
  match calls with
  | Write path' chunk :: calls' =>
      if String.eqb path' path then chunk +:+ written path calls'
      else written path calls'
  | _ :: calls' => written path calls'
  | [] => ""
  end.

(** An operating system on which no call fails and no path exists, and a
    configuration for the concrete instances. *)
Definition os_fine : list fs_call -> fs_call -> option string :=
  fun _ _ => None.

Definition s0 : io_world := IOWorld w0 [] [].

Definition sample_config (master_url : string) : ConfigParser :=
  {| config_get := fun _ option =>
       if String.eqb option "master" then Done master_url
       else Done "/srv/pypi";
     config_getfloat := fun _ _ => Done 10%float;
     config_getfloat_or_none := fun _ _ => Done None;
     config_getboolean := fun _ _ fallback => Done fallback |}.

Definition sample_args (operation : string) : Namespace :=
  {| op := operation; force_check := true; packages := [];
     skip_simple_root := false |}.

(** * Properties *)

(** ** Constants *)

Lemma FIVE_HOURS_FLOAT_value : FIVE_HOURS_FLOAT = 18000%float.
Proof. vm_compute. reflexivity. Qed.

(** ** The guarded fetch *)

Lemma get_unfold srv self path required_serial kw w :
  get srv self path required_serial kw w =
  match srv (request_path self path) kw with
  | Failed f => (Raise (exn_of_failure f), after_get self path required_serial kw w)
  | Replied r =>
      if raises_for_status (session self) kw && (400 <=? status r) then
        (Raise (ClientResponseError (status r) (reason r)),
         after_get self path required_serial kw w)
      else
        match got_serial r with
        | Raise e => (Raise e, after_get self path required_serial kw w)
        | Return got =>
            match check_for_stale_cache self (request_path self path)
                    required_serial got
                    (after_get self path required_serial kw w) with
            | (Return _, w') => (Return r, w')
            | (Raise e, w') => (Raise e, w')
            end
        end
  end.
Proof.
  unfold get, session_get, bind, logging, record_request, await, lift,
    after_get, ret, raise; simpl.
  destruct (srv (request_path self path) kw) as [r|f]; simpl; [|done].
  destruct (raises_for_status (session self) kw && (400 <=? status r));
    simpl; [done|].
  destruct (got_serial r); simpl; [|done].
  destruct (check_for_stale_cache _ _ _ _ _) as [[]]; done.
Qed.

Lemma check_for_stale_cache_spec self path required_serial got w :
  (fresh_enough required_serial got
   ∧ check_for_stale_cache self path required_serial got w = (Return tt, w))
  ∨ (¬ fresh_enough required_serial got
     ∧ ∃ required, required_serial = Some required
       ∧ check_for_stale_cache self path required_serial got w
         = (Raise (StalePage (stale_page_message required path got)), w)).
Proof.
  unfold check_for_stale_cache, fresh_enough, ret, raise.
  destruct required_serial as [required|]; [|left; auto].
  destruct got as [got|]; simpl.
  - destruct (Z.eqb_spec got 0) as [->|Hne]; simpl.
    + right. split; [|eauto]. intros [|(?&?&?&?&?&?)]; simplify_eq.
    + destruct (Z.ltb_spec got required); simpl.
      * right. split; [|eauto]. intros [|(?&?&?&?&?&?)]; simplify_eq. lia.
      * left. split; [|done]. right. exists required, got. auto.
  - right. split; [|eauto]. intros [|(?&?&?&?&?&?)]; simplify_eq.
Qed.

(** What [get] does with a reply that passes the status check and whose
    serial header, if any, reads as an integer. *)
Lemma get_replied srv self path required_serial kw w r got :
  srv (request_path self path) kw = Replied r →
  status r < 400 →
  got_serial r = Return got →
  (fresh_enough required_serial got
   ∧ outcome_of (get srv self path required_serial kw) w = Return r)
  ∨ (¬ fresh_enough required_serial got
     ∧ ∃ required, required_serial = Some required
       ∧ outcome_of (get srv self path required_serial kw) w
         = Raise (StalePage
                    (stale_page_message required (request_path self path) got))).
Proof.
  intros Hsrv Hst Hgot. unfold outcome_of. rewrite get_unfold, Hsrv.
  destruct (Z.leb_spec 400 (status r)); [lia|].
  rewrite andb_false_r, Hgot.
  destruct (check_for_stale_cache_spec self (request_path self path)
              required_serial got (after_get self path required_serial kw w))
    as [[Hf ->]|[Hf (required & -> & ->)]]; [left|right]; eauto.
Qed.

(** C1 (as amended).  A guarded fetch whose request is answered by a
    response [r] carrying the observed serial [got] (no header: [None])
    returns [r] iff no serial is required, or [got] is present, is not 0 and
    is at least the required serial; otherwise it raises [StalePage] with a
    message naming the required serial, the requested path and the observed
    serial (or [None]), and nothing is returned.  Whatever the remote does,
    a response is only ever returned under that condition. *)
Theorem get_staleness_guard srv self path required_serial kw w r got :
  srv (request_path self path) kw = Replied r →
  status r < 400 →
  got_serial r = Return got →
  (outcome_of (get srv self path required_serial kw) w = Return r
   ↔ fresh_enough required_serial got)
  ∧ (¬ fresh_enough required_serial got →
     ∃ required, required_serial = Some required
       ∧ outcome_of (get srv self path required_serial kw) w
         = Raise (StalePage
                    (stale_page_message required (request_path self path) got)))
  ∧ (∀ srv' v, outcome_of (get srv' self path required_serial kw) w = Return v →
       srv' (request_path self path) kw = Replied v
       ∧ ∃ got', got_serial v = Return got'
                 ∧ fresh_enough required_serial got').
Proof.
  intros Hsrv Hst Hgot.
  destruct (get_replied srv self path required_serial kw w r got Hsrv Hst Hgot)
    as [[Hf Hr]|[Hf (required & Hreq & Hr)]].
  - split; [by rewrite Hr|]. split; [done|].
    clear. intros srv' v. unfold outcome_of. rewrite get_unfold.
    destruct (srv' (request_path self path) kw) as [r'|]; [|done].
    destruct (raises_for_status (session self) kw && (400 <=? status r'));
      [done|].
    destruct (got_serial r') as [got'|] eqn:Hg'; [|done].
    destruct (check_for_stale_cache_spec self (request_path self path)
                required_serial got' (after_get self path required_serial kw w))
      as [[Hf' ->]|[Hf' (required' & -> & ->)]]; simpl; [|done].
    intros [= ->]. eauto.
  - split; [rewrite Hr; split; [done|by intros ?]|].
    split; [eauto|].
    clear. intros srv' v. unfold outcome_of. rewrite get_unfold.
    destruct (srv' (request_path self path) kw) as [r'|]; [|done].
    destruct (raises_for_status (session self) kw && (400 <=? status r'));
      [done|].
    destruct (got_serial r') as [got'|] eqn:Hg'; [|done].
    destruct (check_for_stale_cache_spec self (request_path self path)
                required_serial got' (after_get self path required_serial kw w))
      as [[Hf' ->]|[Hf' (required' & -> & ->)]]; simpl; [|done].
    intros [= ->]. eauto.
Qed.

(** The stale-rejection scenario: serial 10 is required of
    [/pypi/pkg-a/json] and the response carries serial 7. *)
Lemma get_staleness_guard_witness :
  outcome_of (get (stub_http (sample_response [(PYPI_SERIAL_HEADER, "7")]))
                sample_master "/pypi/pkg-a/json" (Some 10) []) w0
  = Raise (StalePage
      ("Expected PyPI serial 10 for request https://pypi.org/pypi/pkg-a/json "
       +:+ "but got 7. We can no longer issue a PURGE. "
       +:+ "Report issue to PyPA Warehouse GitHub if it persists ...")).
Proof.
  destruct (get_staleness_guard
              (stub_http (sample_response [(PYPI_SERIAL_HEADER, "7")]))
              sample_master "/pypi/pkg-a/json" (Some 10) [] w0
              (sample_response [(PYPI_SERIAL_HEADER, "7")]) (Some 7)
              eq_refl eq_refl eq_refl) as (_ & Hstale & _).
  destruct Hstale as (required & Hreq & Hres).
  - intros [Hnone|(required & got & Hreq & Hgot & _ & Hle)];
      [discriminate Hnone|].
    injection Hreq as <-. injection Hgot as <-. exact (Hle eq_refl).
  - injection Hreq as <-. exact Hres.
Defined.

(** C1 (as stated) fails: serial 0 is required and the response carries
    serial 0, so the observed serial is present and at least the required
    one, yet the fetch raises [StalePage]. *)
Lemma get_zero_serial_counterexample :
  got_serial (sample_response [(PYPI_SERIAL_HEADER, "0")]) = Return (Some 0)
  ∧ outcome_of (get (stub_http (sample_response [(PYPI_SERIAL_HEADER, "0")]))
                  sample_master "/simple/" (Some 0) []) w0
    = Raise (StalePage
        ("Expected PyPI serial 0 for request https://pypi.org/simple/ "
         +:+ "but got 0. We can no longer issue a PURGE. "
         +:+ "Report issue to PyPA Warehouse GitHub if it persists ..."))
  ∧ ¬ ((∃ v, outcome_of
               (get (stub_http (sample_response [(PYPI_SERIAL_HEADER, "0")]))
                  sample_master "/simple/" (Some 0) []) w0 = Return v)
       ↔ (Some 0 = (None : option Z)
          ∨ ∃ got, got_serial (sample_response [(PYPI_SERIAL_HEADER, "0")])
                   = Return (Some got) ∧ 0 ≤ got)).
Proof.
  split; [reflexivity|]. split; [reflexivity|].
  intros [_ H]. destruct H as [v Hv].
  - right. exists 0. split; [reflexivity|lia].
  - vm_compute in Hv. discriminate Hv.
Qed.

(** [get] always issues exactly one request and writes one debug record,
    whatever becomes of the fetch. *)
Lemma get_world srv self path required_serial kw w :
  world_after (get srv self path required_serial kw) w
  = after_get self path required_serial kw w.
Proof.
  unfold world_after. rewrite get_unfold.
  destruct (srv (request_path self path) kw) as [r|]; [|done].
  destruct (raises_for_status (session self) kw && (400 <=? status r));
    [done|].
  destruct (got_serial r) as [got|]; [|done].
  by destruct (check_for_stale_cache_spec self (request_path self path)
                 required_serial got (after_get self path required_serial kw w))
    as [[_ ->]|[_ (? & _ & ->)]].
Qed.

(** C10.  The URL [get] requests is the base URL of the Master followed by
    the path when the path begins with neither [https://] nor [http://],
    and the path itself when it begins with either. *)
Theorem get_request_url srv self path required_serial kw w :
  (startswith path "https://" = false →
   startswith path "http://" = false →
   requests (world_after (get srv self path required_serial kw) w)
   = (requests w ++ [(url self +:+ path, kw)])%list)
  ∧ (startswith path "https://" = true ∨ startswith path "http://" = true →
     requests (world_after (get srv self path required_serial kw) w)
     = (requests w ++ [(path, kw)])%list).
Proof.
  rewrite get_world. unfold after_get, request_path; simpl. split.
  - by intros -> ->.
  - by intros [->| ->]; rewrite ?orb_true_r.
Qed.

Lemma get_request_url_witness :
  requests (world_after
              (get (stub_http (sample_response [])) sample_master
                 "/simple/pkg-a/" None []) w0)
  = [("https://pypi.org/simple/pkg-a/", [])]
  ∧ requests (world_after
                (get (stub_http (sample_response [])) sample_master
                   "http://mirror.example/simple/" None []) w0)
    = [("http://mirror.example/simple/", [])].
Proof.
  split.
  - exact (proj1 (get_request_url (stub_http (sample_response []))
                    sample_master "/simple/pkg-a/" None [] w0)
             eq_refl eq_refl).
  - exact (proj2 (get_request_url (stub_http (sample_response []))
                    sample_master "http://mirror.example/simple/" None [] w0)
             (or_intror eq_refl)).
Defined.

(** ** Package metadata *)

(** The path [get_package_metadata] asks for is relative, so the request
    goes to the base URL. *)
Lemma request_path_metadata self package_name :
  request_path self ("/pypi/" +:+ package_name +:+ "/json")
  = url self +:+ "/pypi/" +:+ package_name +:+ "/json".
Proof. reflexivity. Qed.

Lemma get_package_metadata_unfold srv self package_name serial w :
  get_package_metadata srv self package_name serial w =
  match get srv self ("/pypi/" +:+ package_name +:+ "/json") (Some serial) [] w with
  | (Return r, w') =>
      match content r with
      | JsonBody doc => (Return doc, w')
      | WrongContentType ctype =>
          if status r =? 404 then (Raise (PackageNotFound package_name), w')
          else (Raise (ClientResponseError (status r)
                         ("Attempt to decode JSON with unexpected mimetype: "
                          +:+ ctype)), w')
      | MalformedJson msg => (Raise (ValueError msg), w')
      end
  | (Raise (ClientResponseError st msg), w') =>
      if st =? 404 then (Raise (PackageNotFound package_name), w')
      else (Raise (ClientResponseError st msg), w')
  | (Raise e, w') => (Raise e, w')
  end.
Proof.
  unfold get_package_metadata, try_except, bind.
  destruct (get _ _ _ _ _ _) as [[r|e] w']; simpl.
  - unfold response_json, ret, raise.
    destruct (content r); simpl; try done. by destruct (status r =? 404).
  - destruct e; try done. unfold raise. by destruct (_ =? 404).
Qed.

(** C9.  With a required serial of exactly 0, a response without the serial
    header and a response whose serial is 0 are both rejected as stale: by
    the guard itself, by [get], and by [get_package_metadata], which passes
    its serial (0 by default) on to [get]. *)
Theorem zero_serial_is_stale self got w :
  got = None ∨ got = Some 0 →
  (∀ path,
     outcome_of (check_for_stale_cache self path (Some 0) got) w
     = Raise (StalePage (stale_page_message 0 path got)))
  ∧ (∀ srv path kw r,
       srv (request_path self path) kw = Replied r →
       status r < 400 →
       got_serial r = Return got →
       outcome_of (get srv self path (Some 0) kw) w
       = Raise (StalePage (stale_page_message 0 (request_path self path) got)))
  ∧ (∀ srv package_name r,
       srv (url self +:+ "/pypi/" +:+ package_name +:+ "/json") [] = Replied r →
       status r < 400 →
       got_serial r = Return got →
       outcome_of (get_package_metadata srv self package_name 0) w
       = Raise (StalePage
                  (stale_page_message 0
                     (url self +:+ "/pypi/" +:+ package_name +:+ "/json") got))).
Proof.
  intros Hgot.
  assert (Hstale : ¬ fresh_enough (Some 0) got).
  { intros [|(?&?&?&?&?&?)]; destruct Hgot; simplify_eq. }
  assert (Hget : ∀ srv path kw r,
             srv (request_path self path) kw = Replied r →
             status r < 400 →
             got_serial r = Return got →
             outcome_of (get srv self path (Some 0) kw) w
             = Raise (StalePage
                        (stale_page_message 0 (request_path self path) got))).
  { intros srv path kw r Hsrv Hst Hg.
    destruct (get_replied srv self path (Some 0) kw w r got Hsrv Hst Hg)
      as [[? _]|[_ (required & [= <-] & ->)]]; done. }
  split; [|split; [exact Hget|]].
  - intros path. unfold outcome_of.
    destruct (check_for_stale_cache_spec self path (Some 0) got w)
      as [[? _]|[_ (required & [= <-] & ->)]]; done.
  - intros srv package_name r Hsrv Hst Hg.
    rewrite <- request_path_metadata in Hsrv |- *.
    specialize (Hget srv _ [] r Hsrv Hst Hg).
    unfold outcome_of in *. rewrite get_package_metadata_unfold.
    destruct (get _ _ _ _ _ _) as [res w']; simpl in *. by subst res.
Qed.

Lemma zero_serial_is_stale_witness :
  outcome_of (get_package_metadata
                (stub_http (sample_response [(PYPI_SERIAL_HEADER, "0")]))
                sample_master "pkg-a" 0) w0
  = Raise (StalePage
      ("Expected PyPI serial 0 for request https://pypi.org/pypi/pkg-a/json "
       +:+ "but got 0. We can no longer issue a PURGE. "
       +:+ "Report issue to PyPA Warehouse GitHub if it persists ..."))
  ∧ outcome_of (get (stub_http (sample_response [])) sample_master
                  "/simple/" (Some 0) []) w0
    = Raise (StalePage
        ("Expected PyPI serial 0 for request https://pypi.org/simple/ "
         +:+ "but got None. We can no longer issue a PURGE. "
         +:+ "Report issue to PyPA Warehouse GitHub if it persists ...")).
Proof.
  split.
  - exact (proj2 (proj2 (zero_serial_is_stale sample_master (Some 0) w0
                           (or_intror eq_refl)))
             (stub_http (sample_response [(PYPI_SERIAL_HEADER, "0")]))
             "pkg-a" (sample_response [(PYPI_SERIAL_HEADER, "0")])
             eq_refl eq_refl eq_refl).
  - exact (proj1 (proj2 (zero_serial_is_stale sample_master None w0
                           (or_introl eq_refl)))
             (stub_http (sample_response [])) "/simple/" []
             (sample_response []) eq_refl eq_refl eq_refl).
Defined.

Lemma exn_of_failure_not_response f st msg :
  exn_of_failure f ≠ ClientResponseError st msg.
Proof. by destruct f. Qed.

Lemma got_serial_raises r e :
  got_serial r = Raise e → ∃ msg, e = ValueError msg.
Proof.
  unfold got_serial, py_int.
  destruct (header_get _ _) as [v|]; [|done].
  destruct (int_of_str v); [done|]. intros [= <-]. eauto.
Qed.



(** ** The remote-procedure gateway *)

Lemma rpc_unfold {A} (srv : string → string → list Z → outcome (option A))
    self method_name serial w :
  rpc srv self method_name serial w =
  match srv (xmlrpc_url self) method_name (rpc_args serial) with
  | Replied a => (Return a, w)
  | Failed (TimedOut te) =>
      (Return None,
       World (log w ++ [timed_out_record self method_name te]) (requests w))
  | Failed f => (Raise (exn_of_failure f), w)
  end.
Proof.
  unfold rpc, try_except, _gen_xmlrpc_client, rpc_args, await.
  destruct (negb (serial =? 0));
    (destruct (srv _ _ _) as [a|[]]; reflexivity).
Qed.

(** C8.  [rpc] handles a timeout and nothing else: a call that times out
    writes an error record and returns [None], the very value returned for
    a nil answer of the remote, while any other failure is raised to the
    caller. *)
Theorem rpc_swallows_timeout {A}
    (srv : string → string → list Z → outcome (option A))
    self method_name serial w :
  (∀ te, srv (xmlrpc_url self) method_name (rpc_args serial)
         = Failed (TimedOut te) →
     rpc srv self method_name serial w
     = (Return None,
        World (log w ++ [(ERROR, "Call to " +:+ method_name +:+ " @ "
                                 +:+ xmlrpc_url self
                                 +:+ " timed out: " +:+ te)])
              (requests w))
     ∧ ∀ srv' : string → string → list Z → outcome (option A),
         srv' (xmlrpc_url self) method_name (rpc_args serial) = Replied None →
         outcome_of (rpc srv' self method_name serial) w
         = outcome_of (rpc srv self method_name serial) w)
  ∧ (∀ answer, srv (xmlrpc_url self) method_name (rpc_args serial)
               = Replied answer →
       rpc srv self method_name serial w = (Return answer, w))
  ∧ (∀ f, srv (xmlrpc_url self) method_name (rpc_args serial) = Failed f →
       (∀ te, f ≠ TimedOut te) →
       rpc srv self method_name serial w = (Raise (exn_of_failure f), w)
       ∧ ∀ te, exn_of_failure f ≠ TimeoutError te).
Proof.
  split; [|split].
  - intros te Hsrv. split.
    + by rewrite rpc_unfold, Hsrv.
    + intros srv' Hsrv'. unfold outcome_of.
      by rewrite !rpc_unfold, Hsrv, Hsrv'.
  - intros answer Hsrv. by rewrite rpc_unfold, Hsrv.
  - intros f Hsrv Hf. rewrite rpc_unfold, Hsrv.
    destruct f as [te| |]; [by destruct (Hf te)|done..].
Qed.

Lemma rpc_swallows_timeout_witness :
  rpc (A:=list ChangelogEntry) (stub_rpc (Failed (TimedOut "deadline exceeded")))
    sample_master "changelog_since_serial" 5 w0
  = (Return None,
     World [(ERROR, "Call to changelog_since_serial @ https://pypi.org/pypi"
                    +:+ " timed out: deadline exceeded")] [])
  ∧ rpc (A:=list ChangelogEntry) (stub_rpc (Failed (ConnectionFailed "reset")))
      sample_master "changelog_since_serial" 5 w0
    = (Raise (ClientConnectionError "reset"), w0).
Proof.
  split.
  - exact (proj1 (proj1 (rpc_swallows_timeout
                           (stub_rpc (Failed (TimedOut "deadline exceeded")))
                           sample_master "changelog_since_serial" 5 w0)
                    "deadline exceeded" eq_refl)).
  - refine (proj1 (proj2 (proj2 (rpc_swallows_timeout
                                   (stub_rpc (Failed (ConnectionFailed "reset")))
                                   sample_master "changelog_since_serial" 5 w0))
                     (ConnectionFailed "reset") eq_refl _)).
    intros te H. discriminate H.
Defined.

(** ** The full listing *)

Lemma all_packages_unfold srv self w :
  all_packages srv self w =
  match rpc srv self "list_packages_with_serial" 0 w with
  | (Return (Some packages), w') =>
      if bool_decide (packages = ∅)
      then (Raise (XmlRpcError "Unable to get full list of packages"), w')
      else (Return packages, w')
  | (Return None, w') =>
      (Raise (XmlRpcError "Unable to get full list of packages"), w')
  | (Raise e, w') => (Raise e, w')
  end.
Proof.
  unfold all_packages, bind.
  destruct (rpc _ _ _ _ _) as [[[packages|]|e] w']; try done.
  by destruct (bool_decide _).
Qed.

Lemma all_packages_nil srv self w :
  srv (xmlrpc_url self) "list_packages_with_serial" [] = Replied None →
  outcome_of (all_packages srv self) w
  = Raise (XmlRpcError "Unable to get full list of packages").
Proof.
  intros Hsrv. unfold outcome_of. rewrite all_packages_unfold, rpc_unfold.
  change (rpc_args 0) with (@nil Z). by rewrite Hsrv.
Qed.

(** C3.  When the listing call yields nothing (a nil answer, or a call that
    timed out) or an empty mapping, [all_packages] raises [XmlRpcError];
    a mapping it returns is the remote's answer and is never empty. *)
Theorem all_packages_rejects_empty srv self w :
  (∀ answer,
     srv (xmlrpc_url self) "list_packages_with_serial" [] = Replied answer →
     answer = None ∨ answer = Some ∅ →
     outcome_of (all_packages srv self) w
     = Raise (XmlRpcError "Unable to get full list of packages"))
  ∧ (∀ te,
       srv (xmlrpc_url self) "list_packages_with_serial" []
       = Failed (TimedOut te) →
       outcome_of (all_packages srv self) w
       = Raise (XmlRpcError "Unable to get full list of packages"))
  ∧ (∀ packages,
       outcome_of (all_packages srv self) w = Return packages →
       packages ≠ ∅
       ∧ srv (xmlrpc_url self) "list_packages_with_serial" []
         = Replied (Some packages)).
Proof.
  unfold outcome_of. rewrite all_packages_unfold, rpc_unfold.
  change (rpc_args 0) with (@nil Z).
  split; [|split].
  - intros answer -> [-> | ->]; simpl; [done|].
    by rewrite bool_decide_true.
  - by intros te ->.
  - intros packages.
    destruct (srv _ _ _) as [[answer|]|[]]; simpl; try done.
    case_bool_decide; simpl; [done|]. by intros [= ->].
Qed.

Lemma all_packages_rejects_empty_witness :
  outcome_of (all_packages (stub_rpc (Replied (Some ∅))) sample_master) w0
  = Raise (XmlRpcError "Unable to get full list of packages")
  ∧ outcome_of (all_packages (stub_rpc (Replied None)) sample_master) w0
    = Raise (XmlRpcError "Unable to get full list of packages").
Proof.
  split.
  - exact (proj1 (all_packages_rejects_empty (stub_rpc (Replied (Some ∅)))
                    sample_master w0)
             (Some ∅) eq_refl (or_intror eq_refl)).
  - exact (proj1 (all_packages_rejects_empty (stub_rpc (Replied None))
                    sample_master w0)
             None eq_refl (or_introl eq_refl)).
Defined.

(** ** The changelog *)

Lemma changed_packages_unfold srv self last_serial w :
  changed_packages srv self last_serial w =
  match rpc srv self "changelog_since_serial" last_serial w with
  | (Return changelog, w') =>
      (Return (foldl changed_packages_step ∅ (default [] changelog)), w')
  | (Raise e, w') => (Raise e, w')
  end.
Proof.
  unfold changed_packages, bind, ret.
  by destruct (rpc _ _ _ _ _) as [[[rows|]|e] w'].
Qed.

(** C4.  When the changelog call yields nothing (a nil answer, or no rows)
    [changed_packages] returns the empty mapping, where [all_packages]
    raises on a nil answer. *)
Theorem changed_packages_tolerates_empty srv self last_serial w answer :
  srv (xmlrpc_url self) "changelog_since_serial" (rpc_args last_serial)
  = Replied answer →
  answer = None ∨ answer = Some [] →
  changed_packages srv self last_serial w = (Return ∅, w)
  ∧ ∀ srv', srv' (xmlrpc_url self) "list_packages_with_serial" []
            = Replied None →
      outcome_of (all_packages srv' self) w
      = Raise (XmlRpcError "Unable to get full list of packages").
Proof.
  intros Hsrv Hanswer. split.
  - rewrite changed_packages_unfold, rpc_unfold, Hsrv.
    by destruct Hanswer as [-> | ->].
  - intros srv' Hsrv'. by apply all_packages_nil.
Qed.

Lemma changed_packages_tolerates_empty_witness :
  changed_packages (stub_rpc (Replied None)) sample_master 5 w0 = (Return ∅, w0).
Proof.
  exact (proj1 (changed_packages_tolerates_empty (stub_rpc (Replied None))
                  sample_master 5 w0 None eq_refl (or_introl eq_refl))).
Defined.

Lemma max0_nonneg l : 0 ≤ max0 l.
Proof. induction l; simpl; lia. Qed.

Lemma max0_upper l s : s ∈ l → s ≤ max0 l.
Proof.
  induction l as [|x l IH]; simpl; [by intros ?%elem_of_nil|].
  intros [->|Hin%IH]%elem_of_cons; lia.
Qed.

Lemma max0_elem l : 0 < max0 l → max0 l ∈ l.
Proof.
  induction l as [|x l IH]; simpl; [lia|]. intros Hpos.
  destruct (Z.max_spec x (max0 l)) as [[Hlt ->]|[Hle ->]].
  - right. apply IH. lia.
  - left.
Qed.

Lemma max0_app l k : max0 (l ++ k) = Z.max (max0 l) (max0 k).
Proof.
  induction l as [|x l IH]; simpl.
  - pose proof (max0_nonneg k). lia.
  - rewrite IH. lia.
Qed.

Lemma serials_of_snoc package changelog row :
  serials_of package (changelog ++ [row])
  = serials_of package changelog
    ++ (if decide (entry_package row = package) then [entry_serial row] else []).
Proof.
  unfold serials_of. rewrite filter_app, fmap_app. f_equal.
  rewrite filter_cons, filter_nil. by case_decide.
Qed.

Lemma elem_of_serials_of package changelog s :
  s ∈ serials_of package changelog
  ↔ ∃ row, row ∈ changelog ∧ entry_package row = package ∧ entry_serial row = s.
Proof.
  unfold serials_of. rewrite list_elem_of_fmap. split.
  - intros (row & -> & [? ?]%list_elem_of_filter). eauto.
  - intros (row & ? & ? & <-). exists row. by rewrite list_elem_of_filter.
Qed.

Lemma changed_packages_step_eq packages package version time action serial :
  changed_packages_step packages (package, version, time, action, serial)
  = if serial >? default 0 (packages !! package)
    then <[package := serial]> packages
    else packages.
Proof. reflexivity. Qed.

(** The loop keeps, for each package, the largest serial of its rows when
    that serial is positive, and no entry otherwise. *)
Lemma fold_changelog_lookup changelog package :
  foldl changed_packages_step ∅ changelog !! package
  = if 0 <? max0 (serials_of package changelog)
    then Some (max0 (serials_of package changelog))
    else None.
Proof.
  induction changelog as [|row changelog IH] using rev_ind; [done|].
  rewrite foldl_snoc, serials_of_snoc, max0_app.
  pose proof (max0_nonneg (serials_of package changelog)) as Hnn.
  destruct row as [[[[pkg version] time] action] serial].
  cbn [entry_package entry_serial].
  assert (Hcur : default 0 (foldl changed_packages_step ∅ changelog !! pkg)
                 = max0 (serials_of pkg changelog)).
  { clear IH Hnn.
    revert pkg. induction changelog as [|row changelog IH] using rev_ind;
      intros pkg; [done|].
    rewrite foldl_snoc, serials_of_snoc, max0_app.
    pose proof (max0_nonneg (serials_of pkg changelog)) as Hnn.
    destruct row as [[[[pkg' version'] time'] action'] serial'].
    rewrite changed_packages_step_eq. cbn [entry_package entry_serial].
    destruct (Z.gtb_spec serial'
                (default 0 (foldl changed_packages_step ∅ changelog !! pkg')))
      as [Hgt|Hle]; rewrite (IH pkg') in *.
    - destruct (decide (pkg' = pkg)) as [->|Hne].
      + rewrite lookup_insert_eq. simpl. lia.
      + rewrite lookup_insert_ne by done. rewrite IH. simpl. lia.
    - rewrite IH. destruct (decide (pkg' = pkg)) as [->|Hne]; simpl; lia. }
  rewrite changed_packages_step_eq, Hcur.
  destruct (Z.gtb_spec serial (max0 (serials_of pkg changelog))) as [Hgt|Hle].
  - destruct (decide (pkg = package)) as [->|Hne].
    + rewrite lookup_insert_eq. simpl.
      replace (Z.max (max0 (serials_of package changelog)) (Z.max serial 0))
        with serial by lia.
      destruct (Z.ltb_spec 0 serial); [done|lia].
    + rewrite lookup_insert_ne by done. rewrite IH. simpl.
      by rewrite Z.max_l by lia.
  - rewrite IH. destruct (decide (pkg = package)) as [->|Hne]; simpl.
    + by rewrite Z.max_l by lia.
    + by rewrite Z.max_l by lia.
Qed.

Lemma fold_changelog_lookup_Some changelog package m :
  foldl changed_packages_step ∅ changelog !! package = Some m
  ↔ 0 < m
    ∧ m ∈ serials_of package changelog
    ∧ ∀ s, s ∈ serials_of package changelog → s ≤ m.
Proof.
  rewrite fold_changelog_lookup.
  destruct (Z.ltb_spec 0 (max0 (serials_of package changelog))) as [Hpos|Hle].
  - split.
    + intros [= <-]. split; [done|]. split; [by apply max0_elem|].
      apply max0_upper.
    + intros (_ & Hin & Hub). f_equal. apply Z.le_antisymm.
      * apply Hub. by apply max0_elem.
      * by apply max0_upper.
  - split; [done|]. intros (Hpos & Hin%max0_upper & _). lia.
Qed.

(** Two mappings described by equivalent conditions are the same mapping. *)
Lemma fold_changelog_ext changelog changelog' :
  (∀ package m,
     (0 < m ∧ m ∈ serials_of package changelog
      ∧ ∀ s, s ∈ serials_of package changelog → s ≤ m)
     ↔ (0 < m ∧ m ∈ serials_of package changelog'
        ∧ ∀ s, s ∈ serials_of package changelog' → s ≤ m)) →
  foldl changed_packages_step ∅ changelog
  = foldl changed_packages_step ∅ changelog'.
Proof.
  intros Hiff. apply map_eq. intros package. apply option_eq. intros m.
  by rewrite !fold_changelog_lookup_Some.
Qed.

Lemma fold_changelog_perm changelog changelog' :
  changelog ≡ₚ changelog' →
  foldl changed_packages_step ∅ changelog
  = foldl changed_packages_step ∅ changelog'.
Proof.
  intros Hperm. apply fold_changelog_ext. intros package m.
  assert (Hin : ∀ s, s ∈ serials_of package changelog
                     ↔ s ∈ serials_of package changelog').
  { intros s. rewrite !elem_of_serials_of.
    by setoid_rewrite Hperm. }
  by setoid_rewrite Hin.
Qed.

Lemma fold_changelog_absorb changelog extra :
  (∀ row, row ∈ extra →
     ∃ row', row' ∈ changelog ∧ entry_package row' = entry_package row
             ∧ entry_serial row < entry_serial row') →
  foldl changed_packages_step ∅ (changelog ++ extra)
  = foldl changed_packages_step ∅ changelog.
Proof.
  intros Hsmaller. apply fold_changelog_ext. intros package m.
  assert (Hin : ∀ s, s ∈ serials_of package (changelog ++ extra)
                     ↔ s ∈ serials_of package changelog
                       ∨ s ∈ serials_of package extra).
  { intros s. unfold serials_of. by rewrite filter_app, fmap_app, elem_of_app. }
  assert (Hdom : ∀ s, s ∈ serials_of package extra →
                      ∃ s', s' ∈ serials_of package changelog ∧ s < s').
  { intros s (row & Hrow & <- & <-)%elem_of_serials_of.
    destruct (Hsmaller row Hrow) as (row' & Hrow' & Hpkg & Hlt).
    exists (entry_serial row'). split; [|done].
    apply elem_of_serials_of. eauto. }
  split.
  - intros (Hpos & [Hm|Hm]%Hin & Hub).
    + split; [done|]. split; [done|]. intros s Hs. apply Hub, Hin. auto.
    + destruct (Hdom m Hm) as (s' & Hs' & Hlt).
      assert (s' ≤ m) by (apply Hub, Hin; auto). lia.
  - intros (Hpos & Hm & Hub). split; [done|]. split; [apply Hin; auto|].
    intros s [Hs|Hs]%Hin; [by apply Hub|].
    destruct (Hdom s Hs) as (s' & Hs' & Hlt).
    assert (s' ≤ m) by by apply Hub. lia.
Qed.

(** C2 (as amended).  [changed_packages] returns the mapping that sends
    each package having a row with a positive serial to the largest serial
    among its rows, and holds no entry for a package whose rows all have a
    serial of 0 or less.  The mapping does not depend on the order of the
    rows, and rows whose serial is smaller than that of a row already there
    for the same package leave it unchanged. *)
Theorem changed_packages_max_serial srv self last_serial w changelog :
  srv (xmlrpc_url self) "changelog_since_serial" (rpc_args last_serial)
  = Replied (Some changelog) →
  ∃ packages,
    changed_packages srv self last_serial w = (Return packages, w)
    ∧ (∀ package m,
         packages !! package = Some m
         ↔ 0 < m
           ∧ m ∈ serials_of package changelog
           ∧ ∀ s, s ∈ serials_of package changelog → s ≤ m)
    ∧ (∀ srv' changelog',
         srv' (xmlrpc_url self) "changelog_since_serial" (rpc_args last_serial)
         = Replied (Some changelog') →
         changelog' ≡ₚ changelog →
         changed_packages srv' self last_serial w = (Return packages, w))
    ∧ (∀ srv' changelog' extra,
         srv' (xmlrpc_url self) "changelog_since_serial" (rpc_args last_serial)
         = Replied (Some changelog') →
         changelog' ≡ₚ changelog ++ extra →
         (∀ row, row ∈ extra →
            ∃ row', row' ∈ changelog
                    ∧ entry_package row' = entry_package row
                    ∧ entry_serial row < entry_serial row') →
         changed_packages srv' self last_serial w = (Return packages, w)).
Proof.
  intros Hsrv. exists (foldl changed_packages_step ∅ changelog).
  split; [by rewrite changed_packages_unfold, rpc_unfold, Hsrv|].
  split; [intros package m; apply fold_changelog_lookup_Some|].
  split.
  - intros srv' changelog' Hsrv' Hperm.
    rewrite changed_packages_unfold, rpc_unfold, Hsrv'. simpl.
    by rewrite (fold_changelog_perm _ _ Hperm).
  - intros srv' changelog' extra Hsrv' Hperm Hsmaller.
    rewrite changed_packages_unfold, rpc_unfold, Hsrv'. simpl.
    by rewrite (fold_changelog_perm _ _ Hperm), fold_changelog_absorb.
Qed.

Lemma changed_packages_max_serial_witness :
  ∃ packages,
    changed_packages (stub_rpc (Replied (Some sample_changelog)))
      sample_master 5 w0 = (Return packages, w0)
    ∧ packages !! "pkg-a" = Some 10
    ∧ packages !! "pkg-b" = Some 6.
Proof.
  destruct (changed_packages_max_serial
              (stub_rpc (Replied (Some sample_changelog)))
              sample_master 5 w0 sample_changelog eq_refl)
    as (packages & Hres & Hmax & _).
  exists packages. split; [exact Hres|]. split.
  - apply Hmax. split; [reflexivity|]. split.
    + apply list_elem_of_In. right. left. reflexivity.
    + intros s Hs. apply list_elem_of_In in Hs.
      destruct Hs as [<-|[<-|[]]]; discriminate.
  - apply Hmax. split; [reflexivity|]. split.
    + apply list_elem_of_In. left. reflexivity.
    + intros s Hs. apply list_elem_of_In in Hs.
      destruct Hs as [<-|[]]; discriminate.
Defined.

(** C2 (as stated) fails: the only row of [pkg-a] has serial 0, which is
    therefore the largest serial of the package, yet the mapping returned
    has no entry for [pkg-a]. *)
Lemma changed_packages_zero_serial_counterexample :
  changed_packages
    (stub_rpc (Replied (Some [("pkg-a", Some "1.0", 1700000000, "new release", 0)])))
    sample_master 0 w0 = (Return ∅, w0)
  ∧ serials_of "pkg-a" [("pkg-a", Some "1.0", 1700000000, "new release", 0)]
    = [0]
  ∧ ¬ ∃ packages,
        outcome_of
          (changed_packages
             (stub_rpc (Replied (Some [("pkg-a", Some "1.0", 1700000000,
                                         "new release", 0)])))
             sample_master 0) w0 = Return packages
        ∧ packages !! "pkg-a" = Some 0.
Proof.
  split; [reflexivity|]. split; [reflexivity|].
  intros (packages & Hres & Hlookup).
  vm_compute in Hres. injection Hres as <-. discriminate Hlookup.
Qed.

(** ** Construction *)

Lemma init_unfold env kwargs_of evloop base_url tmo gtmo proxy allow mismatch w :
  ∃ w',
    __init__ env kwargs_of evloop base_url tmo gtmo proxy allow mismatch w
    = if startswith base_url "http://" && negb allow then
        (Raise (ValueError ("Master URL " +:+ base_url +:+ " is not https scheme")),
         World (log w' ++ [(ERROR, "Master URL " +:+ base_url
                                   +:+ " is not https scheme")])
               (requests w'))
      else
        match evloop with
        | CurrentLoop current =>
            (Return {| url := base_url;
                       timeout := tmo;
                       global_timeout := or_float gtmo FIVE_HOURS_FLOAT;
                       allow_upstream_serial_mismatch := mismatch;
                       proxy_kwargs :=
                         match (if truthy_str proxy then proxy else env) with
                         | Some a =>
                             if truthy_str
                                  (if truthy_str proxy then proxy else env)
                             then kwargs_of a else ∅
                         | None => ∅
                         end;
                       allow_non_https := allow;
                       loop := current |}, w')
        | NoCurrentLoop msg => (Raise (RuntimeError msg), w')
        end.
Proof.
  unfold __init__, bind, lift, loop_result.
  destruct (if bool_decide _ then ret () else logging _ _) as [res w'] eqn:Hlog.
  assert (res = Return ()) as ->.
  { revert Hlog. case_bool_decide; unfold ret, logging; by intros [= <- _]. }
  exists w'. destruct (startswith base_url "http://" && negb allow); [done|].
  by destruct evloop.
Qed.




(** A float above zero is not equal to zero. *)
Lemma float_pos_nonzero (f : float) :
  (0 <? f)%float = true → (f =? 0)%float = false.
Proof.
  rewrite FloatAxioms.ltb_spec, FloatAxioms.eqb_spec. unfold SFltb, SFeqb.
  change (Prim2SF 0) with (S754_zero false).
  destruct (Prim2SF f) as [[]|[]| |[] ? ?]; simpl; congruence.
Qed.

(** C7 (as amended).  The global timeout of a constructed Master is the
    default of five hours, 18000 seconds, when the argument is [None] or
    is zero, and also when it is left at its default value; any other
    value supplied, a positive one in particular but a negative one just
    as well, is kept as it is. *)
Theorem init_global_timeout env kwargs_of evloop base_url tmo gtmo proxy allow
    mismatch w master :
  outcome_of (__init__ env kwargs_of evloop base_url tmo gtmo proxy allow mismatch) w
  = Return master →
  FIVE_HOURS_FLOAT = 18000%float
  ∧ (gtmo = None ∨ gtmo = default_global_timeout →
     global_timeout master = FIVE_HOURS_FLOAT)
  ∧ (∀ f, gtmo = Some f → (f =? 0)%float = true →
       global_timeout master = FIVE_HOURS_FLOAT)
  ∧ (∀ f, gtmo = Some f → (f =? 0)%float = false →
       global_timeout master = f)
  ∧ (∀ f, gtmo = Some f → (0 <? f)%float = true →
       global_timeout master = f).
Proof.
  unfold outcome_of.
  destruct (init_unfold env kwargs_of evloop base_url tmo gtmo proxy allow mismatch w)
    as [w' ->].
  destruct (startswith base_url "http://" && negb allow); [done|].
  destruct evloop as [current|]; [|done].
  simpl. intros [= <-]. simpl.
  split; [apply FIVE_HOURS_FLOAT_value|].
  split; [by intros [-> | ->]|].
  split; [by intros f -> Hz; simpl; rewrite Hz|].
  split; [by intros f -> Hz; simpl; rewrite Hz|].
  intros f -> Hpos%float_pos_nonzero. simpl. by rewrite Hpos.
Qed.

Lemma init_global_timeout_witness :
  ∃ master,
    outcome_of (__init__ None (λ _, ∅) (CurrentLoop sample_loop) "https://pypi.org" default_timeout
                  (Some 0%float) default_proxy false false) w0
    = Return master
    ∧ global_timeout master = FIVE_HOURS_FLOAT.
Proof.
  eexists. split; [reflexivity|].
  exact (proj1 (proj2 (proj2 (init_global_timeout None (λ _, ∅) (CurrentLoop sample_loop)
                                "https://pypi.org" default_timeout
                                (Some 0%float) default_proxy false false w0 _
                                eq_refl)))
           0%float eq_refl eq_refl).
Defined.

(** C7 (as stated) fails: -1.0 is not positive, yet a Master constructed
    with it keeps -1.0 as its global timeout instead of five hours. *)
Lemma init_negative_timeout_counterexample :
  ((-1) <=? 0)%float = true
  ∧ ∃ master,
      outcome_of (__init__ None (λ _, ∅) (CurrentLoop sample_loop) "https://pypi.org" default_timeout
                    (Some (-1)%float) default_proxy false false) w0
      = Return master
      ∧ global_timeout master = (-1)%float
      ∧ global_timeout master ≠ FIVE_HOURS_FLOAT.
Proof.
  split; [reflexivity|]. eexists. split; [reflexivity|]. split; [reflexivity|].
  simpl. intros H.
  assert (Hneq : ((-1) =? FIVE_HOURS_FLOAT)%float = false) by reflexivity.
  rewrite <- H in Hneq. discriminate Hneq.
Qed.

(** * Further properties of the module *)

(** ** [get]: what comes before the guard *)

(** X1.  A request that fails in transport makes [get] raise the
    exception of the failure.  A request answered with a status of 400 or
    more makes [get] raise the [ClientResponseError] of that status,
    without reading the serial header or consulting the guard, unless the
    keyword arguments of the call switch this off: with
    [raise_for_status=False] among them the answer is handed to the guard
    like any other, and returned when it is fresh enough. *)
Theorem get_error_before_guard srv self path required_serial kw w :
  (∀ f, srv (request_path self path) kw = Failed f →
     outcome_of (get srv self path required_serial kw) w
     = Raise (exn_of_failure f))
  ∧ (∀ r, srv (request_path self path) kw = Replied r →
       400 ≤ status r →
       kw_get "raise_for_status" kw = None
       ∨ kw_get "raise_for_status" kw = Some KwNone
       ∨ kw_get "raise_for_status" kw = Some (KwBool true) →
       outcome_of (get srv self path required_serial kw) w
       = Raise (ClientResponseError (status r) (reason r)))
  ∧ (∀ r got, srv (request_path self path) kw = Replied r →
       kw_get "raise_for_status" kw = Some (KwBool false) →
       got_serial r = Return got →
       fresh_enough required_serial got →
       outcome_of (get srv self path required_serial kw) w = Return r).
Proof.
  unfold outcome_of. rewrite get_unfold. split; [|split].
  - by intros f ->.
  - intros r -> Hge Hkw. unfold raises_for_status.
    destruct (Z.leb_spec 400 (status r)); [|lia].
    by destruct Hkw as [-> | [-> | ->]].
  - intros r got -> Hkw Hgot Hfresh. unfold raises_for_status.
    rewrite Hkw, Hgot. simpl.
    by destruct (check_for_stale_cache_spec self (request_path self path)
                   required_serial got
                   (after_get self path required_serial kw w))
      as [[_ ->]|[Hstale _]].
Qed.

Lemma get_error_before_guard_witness :
  outcome_of
    (get (stub_http {| status := 503; reason := "Service Unavailable";
                       headers := [(PYPI_SERIAL_HEADER, "12")];
                       content := WrongContentType "text/html" |})
       sample_master "/simple/" (Some 10) []) w0
  = Raise (ClientResponseError 503 "Service Unavailable")
  ∧ outcome_of
      (get (stub_http {| status := 503; reason := "Service Unavailable";
                         headers := [(PYPI_SERIAL_HEADER, "12")];
                         content := WrongContentType "text/html" |})
         sample_master "/simple/" (Some 10)
         [("raise_for_status", KwBool false)]) w0
    = Return {| status := 503; reason := "Service Unavailable";
                headers := [(PYPI_SERIAL_HEADER, "12")];
                content := WrongContentType "text/html" |}.
Proof.
  split.
  - exact (proj1 (proj2 (get_error_before_guard
                           (stub_http {| status := 503;
                                         reason := "Service Unavailable";
                                         headers := [(PYPI_SERIAL_HEADER, "12")];
                                         content := WrongContentType "text/html" |})
                           sample_master "/simple/" (Some 10) [] w0))
             _ eq_refl ltac:(discriminate) (or_introl eq_refl)).
  - refine (proj2 (proj2 (get_error_before_guard
                            (stub_http {| status := 503;
                                          reason := "Service Unavailable";
                                          headers := [(PYPI_SERIAL_HEADER, "12")];
                                          content := WrongContentType "text/html" |})
                            sample_master "/simple/" (Some 10)
                            [("raise_for_status", KwBool false)] w0))
              _ (Some 12) eq_refl eq_refl eq_refl _).
    right. exists 10, 12.
    split; [reflexivity|]. split; [reflexivity|].
    split; discriminate.
Defined.

(** [repr] on two strings: one without quotes, one with a single quote. *)
Lemma repr_str_examples :
  repr_str "n/a" = "'n/a'"
  ∧ repr_str "it's" = String double_quote ("it's" +:+ String double_quote "").
Proof. split; reflexivity. Qed.

(** X2.  The serial header is converted before the guard runs: a response
    whose header, a text of printable ASCII characters, is no integer
    literal makes [get] raise the [ValueError] of [int], also when the
    caller opted out of the check with [None].  The message shows the
    header as [repr] does, which [int] cuts off after 200 characters: the
    statement is for the headers whose [repr] is no longer. *)
Theorem get_bad_serial_header srv self path required_serial kw w r v :
  srv (request_path self path) kw = Replied r →
  status r < 400 →
  header_get PYPI_SERIAL_HEADER (headers r) = Some v →
  printable_ascii v = true →
  (String.length (repr_str v) ≤ 200)%nat →
  int_of_str v = None →
  outcome_of (get srv self path required_serial kw) w
  = Raise (ValueError ("invalid literal for int() with base 10: " +:+ repr_str v)).
Proof.
  intros Hsrv Hst Hhdr _ _ Hint. unfold outcome_of. rewrite get_unfold, Hsrv.
  destruct (Z.leb_spec 400 (status r)); [lia|]. rewrite andb_false_r.
  unfold got_serial, py_int. by rewrite Hhdr, Hint.
Qed.

Lemma get_bad_serial_header_witness :
  outcome_of (get (stub_http (sample_response [(PYPI_SERIAL_HEADER, "n/a")]))
                sample_master "/simple/" None []) w0
  = Raise (ValueError "invalid literal for int() with base 10: 'n/a'").
Proof.
  exact (get_bad_serial_header
           (stub_http (sample_response [(PYPI_SERIAL_HEADER, "n/a")]))
           sample_master "/simple/" None [] w0
           (sample_response [(PYPI_SERIAL_HEADER, "n/a")]) "n/a"
           eq_refl eq_refl eq_refl eq_refl
           ltac:(vm_compute; repeat constructor) eq_refl).
Defined.

(** X3.  For a positive required serial the guard is the plain comparison:
    the response is returned iff a serial was observed and it is at least
    the required one. *)
Theorem get_positive_serial srv self path required kw w r got :
  0 < required →
  srv (request_path self path) kw = Replied r →
  status r < 400 →
  got_serial r = Return got →
  outcome_of (get srv self path (Some required) kw) w = Return r
  ↔ ∃ observed, got = Some observed ∧ required ≤ observed.
Proof.
  intros Hpos Hsrv Hst Hgot.
  destruct (get_replied srv self path (Some required) kw w r got Hsrv Hst Hgot)
    as [[Hf ->]|[Hf (required' & _ & ->)]].
  - split; [|done]. intros _.
    destruct Hf as [|(? & observed & [= <-] & -> & _ & ?)]; [done|eauto].
  - split; [done|]. intros (observed & -> & Hle). destruct Hf.
    right. exists required, observed. repeat split; [lia|done].
Qed.

Lemma get_positive_serial_witness :
  outcome_of (get (stub_http (sample_response [(PYPI_SERIAL_HEADER, "12")]))
                sample_master "/simple/" (Some 10) []) w0
  = Return (sample_response [(PYPI_SERIAL_HEADER, "12")]).
Proof.
  apply (proj2 (get_positive_serial
                  (stub_http (sample_response [(PYPI_SERIAL_HEADER, "12")]))
                  sample_master "/simple/" 10 [] w0
                  (sample_response [(PYPI_SERIAL_HEADER, "12")]) (Some 12)
                  eq_refl eq_refl eq_refl eq_refl)).
  exists 12. split; [reflexivity|discriminate].
Defined.

(** X4.  Requiring less never turns a success into a failure: a response
    returned under a required serial is also returned under any smaller
    requirement and under no requirement at all. *)
Theorem get_weaker_requirement srv self path required required' kw w r :
  outcome_of (get srv self path (Some required) kw) w = Return r →
  required' ≤ required →
  outcome_of (get srv self path (Some required') kw) w = Return r
  ∧ outcome_of (get srv self path None kw) w = Return r.
Proof.
  unfold outcome_of. rewrite !get_unfold.
  destruct (srv (request_path self path) kw) as [r'|]; [|done].
  destruct (raises_for_status (session self) kw && (400 <=? status r'));
    [done|].
  destruct (got_serial r') as [got|]; [|done].
  destruct (check_for_stale_cache_spec self (request_path self path)
              (Some required) got (after_get self path (Some required) kw w))
    as [[Hf ->]|[_ (? & _ & ->)]]; simpl; [|done].
  intros [= ->] Hle. split; [|done].
  destruct (check_for_stale_cache_spec self (request_path self path)
              (Some required') got (after_get self path (Some required') kw w))
    as [[_ ->]|[Hf' _]]; [done|].
  destruct Hf'. destruct Hf as [|(? & observed & [= <-] & -> & ? & ?)]; [done|].
  right. exists required', observed. repeat split; [done|lia].
Qed.

Lemma get_weaker_requirement_witness :
  outcome_of (get (stub_http (sample_response [(PYPI_SERIAL_HEADER, "12")]))
                sample_master "/simple/" (Some 3) []) w0
  = Return (sample_response [(PYPI_SERIAL_HEADER, "12")]).
Proof.
  exact (proj1 (get_weaker_requirement
                  (stub_http (sample_response [(PYPI_SERIAL_HEADER, "12")]))
                  sample_master "/simple/" 12 3 [] w0
                  (sample_response [(PYPI_SERIAL_HEADER, "12")])
                  eq_refl ltac:(discriminate))).
Defined.

(** ** [get_package_metadata]: when a document is returned *)

(** X5.  [get_package_metadata] returns a document exactly when the index
    answers the metadata request with a status below 400, a serial header
    that is not 0 and is at least the serial asked for, and a JSON body;
    the document returned is that body.  In particular no document is ever
    returned from a response without the serial header. *)
Theorem get_package_metadata_returns srv self package_name serial w doc :
  outcome_of (get_package_metadata srv self package_name serial) w = Return doc
  ↔ ∃ r got,
      srv (url self +:+ "/pypi/" +:+ package_name +:+ "/json") [] = Replied r
      ∧ status r < 400
      ∧ got_serial r = Return (Some got)
      ∧ got ≠ 0 ∧ serial ≤ got
      ∧ content r = JsonBody doc.
Proof.
  unfold outcome_of.
  rewrite get_package_metadata_unfold, get_unfold, request_path_metadata.
  destruct (srv _ []) as [r|f]; simpl.
  - destruct (Z.leb_spec 400 (status r)) as [Hge|Hlt]; simpl.
    { split.
      - by destruct (status r =? 404).
      - intros (r' & got & [= <-] & ? & _). lia. }
    destruct (got_serial r) as [got|e] eqn:Hg; simpl.
    + destruct (check_for_stale_cache_spec self
                  (url self +:+ "/pypi/" +:+ package_name +:+ "/json")
                  (Some serial) got
                  (after_get self ("/pypi/" +:+ package_name +:+ "/json")
                     (Some serial) [] w))
        as [[Hf ->]|[Hf (required & _ & ->)]]; simpl.
      * destruct Hf as [|(? & observed & [= <-] & -> & Hnz & Hle)]; [done|].
        destruct (content r) as [doc'| |] eqn:Hc; simpl.
        -- split.
           ++ intros [= ->]. exists r, observed. eauto 10.
           ++ intros (r' & got & [= <-] & _ & _ & _ & _ & Hc').
              rewrite Hc in Hc'. by injection Hc' as ->.
        -- split.
           ++ by destruct (status r =? 404).
           ++ intros (r' & got & [= <-] & _ & _ & _ & _ & Hc').
              by rewrite Hc in Hc'.
        -- split; [done|].
           intros (r' & got & [= <-] & _ & _ & _ & _ & Hc').
           by rewrite Hc in Hc'.
      * split; [done|].
        intros (r' & got' & [= <-] & _ & Hg' & Hnz & Hle & _).
        rewrite Hg in Hg'. injection Hg' as ->. destruct Hf.
        right. exists serial, got'. eauto.
    + split.
      * apply got_serial_raises in Hg as [msg ->]. done.
      * intros (r' & got' & [= <-] & _ & Hg' & _). by rewrite Hg in Hg'.
  - split.
    + destruct (exn_of_failure f) eqn:Hf; try done. by destruct (_ =? 404).
    + intros (r' & got' & [=] & _).
Qed.

Lemma get_package_metadata_returns_witness :
  outcome_of (get_package_metadata
                (stub_http (sample_response [(PYPI_SERIAL_HEADER, "12")]))
                sample_master "pkg-a" 10) w0
  = Return (JObj []).
Proof.
  apply (proj2 (get_package_metadata_returns
                  (stub_http (sample_response [(PYPI_SERIAL_HEADER, "12")]))
                  sample_master "pkg-a" 10 w0 (JObj []))).
  exists (sample_response [(PYPI_SERIAL_HEADER, "12")]), 12.
  repeat split; discriminate.
Defined.

(** X6.  Whatever the outcome, [get_package_metadata] issues exactly one
    request, to the path [/pypi/<name>/json] under the base URL and without
    keyword arguments, and writes exactly one debug record: mapping a 404
    to [PackageNotFound] causes no second request. *)
Theorem get_package_metadata_one_request srv self package_name serial w :
  world_after (get_package_metadata srv self package_name serial) w
  = World (log w ++ [(DEBUG, "Getting "
                             +:+ ("/pypi/" +:+ package_name +:+ "/json")
                             +:+ " (serial " +:+ str_int serial +:+ ")")])
          (requests w ++ [(url self +:+ "/pypi/" +:+ package_name +:+ "/json",
                           [])]).
Proof.
  unfold world_after. rewrite get_package_metadata_unfold.
  pose proof (get_world srv self ("/pypi/" +:+ package_name +:+ "/json")
                (Some serial) [] w) as Hw.
  unfold world_after in Hw.
  destruct (get _ _ _ _ _ _) as [[r|e] w']; simpl in *; subst w'.
  - destruct (content r); [done| |done]. by destruct (_ =? 404).
  - destruct e; try done. by destruct (_ =? 404).
Qed.

(** ** The remote-procedure gateway and its two users *)

(** X7.  [changed_packages] never sends the serial 0 to the remote.  With
    0 as last serial it calls [changelog_since_serial] without argument and
    folds the rows of that answer, whatever the remote would answer to the
    argument 0; with any other last serial, negative ones included, it
    calls the method with that serial as its only argument. *)
Theorem changed_packages_call_arguments srv self last_serial w rows :
  (last_serial = 0 →
   srv (xmlrpc_url self) "changelog_since_serial" [] = Replied (Some rows) →
   changed_packages srv self last_serial w
   = (Return (foldl changed_packages_step ∅ rows), w))
  ∧ (last_serial ≠ 0 →
     srv (xmlrpc_url self) "changelog_since_serial" [last_serial]
     = Replied (Some rows) →
     changed_packages srv self last_serial w
     = (Return (foldl changed_packages_step ∅ rows), w)).
Proof.
  rewrite changed_packages_unfold, rpc_unfold. unfold rpc_args. split.
  - intros ->. simpl. by intros ->.
  - intros Hne. destruct (Z.eqb_spec last_serial 0) as [Heq|_].
    + by destruct Hne.
    + simpl. by intros ->.
Qed.

(** A remote that answers the call without argument with the whole
    changelog, and any call with an argument with nothing. *)
Lemma changed_packages_call_arguments_witness :
  changed_packages
    (λ _ _ args, match args with
                 | [] => Replied (Some sample_changelog)
                 | _ => Replied (Some [])
                 end)
    sample_master 0 w0
  = (Return {["pkg-a" := 10; "pkg-b" := 6]}, w0).
Proof.
  exact (eq_trans
            (proj1 (changed_packages_call_arguments
                      (λ _ _ args, match args with
                                   | [] => Replied (Some sample_changelog)
                                   | _ => Replied (Some [])
                                   end)
                      sample_master 0 w0 sample_changelog)
               eq_refl eq_refl) eq_refl).
Defined.

(** X8.  A changelog call that times out makes [changed_packages] return
    the empty mapping, as if nothing had changed; the error record of [rpc]
    in the log is the only trace of the timeout. *)
Theorem changed_packages_timeout srv self last_serial w te :
  srv (xmlrpc_url self) "changelog_since_serial" (rpc_args last_serial)
  = Failed (TimedOut te) →
  changed_packages srv self last_serial w
  = (Return ∅,
     World (log w ++ [(ERROR, "Call to changelog_since_serial @ "
                              +:+ xmlrpc_url self +:+ " timed out: " +:+ te)])
           (requests w)).
Proof.
  intros Hsrv. by rewrite changed_packages_unfold, rpc_unfold, Hsrv.
Qed.

Lemma changed_packages_timeout_witness :
  changed_packages (stub_rpc (Failed (TimedOut "deadline exceeded")))
    sample_master 5 w0
  = (Return ∅,
     World [(ERROR, "Call to changelog_since_serial @ https://pypi.org/pypi"
                    +:+ " timed out: deadline exceeded")] []).
Proof.
  exact (changed_packages_timeout
           (stub_rpc (Failed (TimedOut "deadline exceeded")))
           sample_master 5 w0 "deadline exceeded" eq_refl).
Defined.

(** X9.  A failure of the remote call other than a timeout reaches the
    caller of [all_packages] and of [changed_packages] as the exception it
    is: it is not turned into [XmlRpcError], nor into an empty mapping, and
    nothing is logged. *)
Theorem rpc_failure_propagates srv_list srv_log self last_serial w f :
  (∀ te, f ≠ TimedOut te) →
  (srv_list (xmlrpc_url self) "list_packages_with_serial" [] = Failed f →
   all_packages srv_list self w = (Raise (exn_of_failure f), w))
  ∧ (srv_log (xmlrpc_url self) "changelog_since_serial" (rpc_args last_serial)
     = Failed f →
     changed_packages srv_log self last_serial w
     = (Raise (exn_of_failure f), w)).
Proof.
  intros Hf. split; intros Hsrv.
  - rewrite all_packages_unfold, rpc_unfold.
    change (rpc_args 0) with (@nil Z). rewrite Hsrv.
    destruct f as [te| |]; [by destruct (Hf te)|done..].
  - rewrite changed_packages_unfold, rpc_unfold, Hsrv.
    destruct f as [te| |]; [by destruct (Hf te)|done..].
Qed.

Lemma rpc_failure_propagates_witness :
  all_packages (stub_rpc (Failed (Fault 503 "backend down"))) sample_master w0
  = (Raise (XmlRpcFault 503 "backend down"), w0)
  ∧ changed_packages (stub_rpc (Failed (ConnectionFailed "reset")))
      sample_master 5 w0
    = (Raise (ClientConnectionError "reset"), w0).
Proof.
  split.
  - refine (proj1 (rpc_failure_propagates
                     (stub_rpc (Failed (Fault 503 "backend down")))
                     (stub_rpc (Failed (Fault 503 "backend down")))
                     sample_master 5 w0 (Fault 503 "backend down") _)
              eq_refl).
    intros te H. discriminate H.
  - refine (proj2 (rpc_failure_propagates
                     (stub_rpc (Failed (ConnectionFailed "reset")))
                     (stub_rpc (Failed (ConnectionFailed "reset")))
                     sample_master 5 w0 (ConnectionFailed "reset") _)
              eq_refl).
    intros te H. discriminate H.
Defined.

(** X10.  A non-empty listing is handed to the caller of [all_packages] as
    the remote sent it, and the call leaves no record in the log. *)
Theorem all_packages_returns_listing srv self w packages :
  srv (xmlrpc_url self) "list_packages_with_serial" [] = Replied (Some packages) →
  packages ≠ ∅ →
  all_packages srv self w = (Return packages, w).
Proof.
  intros Hsrv Hne. rewrite all_packages_unfold, rpc_unfold.
  change (rpc_args 0) with (@nil Z). rewrite Hsrv.
  by rewrite bool_decide_false.
Qed.

Lemma all_packages_returns_listing_witness :
  all_packages (stub_rpc (Replied (Some {["pkg-a" := 10; "pkg-b" := 7]})))
    sample_master w0
  = (Return {["pkg-a" := 10; "pkg-b" := 7]}, w0).
Proof.
  refine (all_packages_returns_listing
            (stub_rpc (Replied (Some {["pkg-a" := 10; "pkg-b" := 7]})))
            sample_master w0 {["pkg-a" := 10; "pkg-b" := 7]} eq_refl _).
  intros H.
  exact (eq_ind (Some 10) (λ o, match o with Some _ => True | None => False end)
           I None (f_equal (λ m : gmap string Z, m !! "pkg-a") H)).
Defined.

(** ** The changelog fold as a merge *)

Lemma serials_of_app package changelog changelog' :
  serials_of package (changelog ++ changelog')
  = serials_of package changelog ++ serials_of package changelog'.
Proof. unfold serials_of. by rewrite filter_app, fmap_app. Qed.

Lemma fold_changelog_app changelog changelog' :
  foldl changed_packages_step ∅ (changelog ++ changelog')
  = union_with (λ a b, Some (Z.max a b))
      (foldl changed_packages_step ∅ changelog)
      (foldl changed_packages_step ∅ changelog').
Proof.
  apply map_eq. intros package.
  rewrite lookup_union_with, !fold_changelog_lookup, serials_of_app, max0_app.
  pose proof (max0_nonneg (serials_of package changelog)).
  pose proof (max0_nonneg (serials_of package changelog')).
  destruct (Z.ltb_spec 0 (max0 (serials_of package changelog)));
    destruct (Z.ltb_spec 0 (max0 (serials_of package changelog'))); simpl.
  - destruct (Z.ltb_spec 0 (Z.max (max0 (serials_of package changelog))
                               (max0 (serials_of package changelog'))));
      [done|lia].
  - rewrite Z.max_l by lia.
    by destruct (Z.ltb_spec 0 (max0 (serials_of package changelog))); [|lia].
  - rewrite Z.max_r by lia.
    by destruct (Z.ltb_spec 0 (max0 (serials_of package changelog'))); [|lia].
  - destruct (Z.ltb_spec 0 (Z.max (max0 (serials_of package changelog))
                               (max0 (serials_of package changelog'))));
      [lia|done].
Qed.

(** X11.  The mapping of a changelog received in two parts is the merge of
    the mappings of the parts: a package of both gets the larger of its two
    serials, a package of one part keeps its serial. *)
Theorem changed_packages_merge srv1 srv2 srv self last_serial w
    changelog1 changelog2 :
  srv1 (xmlrpc_url self) "changelog_since_serial" (rpc_args last_serial)
  = Replied (Some changelog1) →
  srv2 (xmlrpc_url self) "changelog_since_serial" (rpc_args last_serial)
  = Replied (Some changelog2) →
  srv (xmlrpc_url self) "changelog_since_serial" (rpc_args last_serial)
  = Replied (Some (changelog1 ++ changelog2)) →
  ∃ packages1 packages2,
    changed_packages srv1 self last_serial w = (Return packages1, w)
    ∧ changed_packages srv2 self last_serial w = (Return packages2, w)
    ∧ changed_packages srv self last_serial w
      = (Return (union_with (λ a b, Some (Z.max a b)) packages1 packages2), w).
Proof.
  intros H1 H2 H12. do 2 eexists.
  rewrite !changed_packages_unfold, !rpc_unfold, H1, H2, H12. simpl.
  by rewrite fold_changelog_app.
Qed.

Lemma changed_packages_merge_witness :
  ∃ packages1 packages2,
    changed_packages
      (stub_rpc (Replied (Some [("pkg-a", Some "1.0", 1700000000, "new release", 8)])))
      sample_master 5 w0 = (Return packages1, w0)
    ∧ changed_packages
        (stub_rpc (Replied (Some [("pkg-a", Some "1.1", 1700000100, "new release", 10);
                                  ("pkg-b", Some "1.0", 1700000200, "new release", 6)])))
        sample_master 5 w0 = (Return packages2, w0)
    ∧ changed_packages (stub_rpc (Replied (Some sample_changelog)))
        sample_master 5 w0
      = (Return (union_with (λ a b, Some (Z.max a b)) packages1 packages2), w0).
Proof.
  exact (changed_packages_merge
           (stub_rpc (Replied (Some [("pkg-a", Some "1.0", 1700000000, "new release", 8)])))
           (stub_rpc (Replied (Some [("pkg-a", Some "1.1", 1700000100, "new release", 10);
                                     ("pkg-b", Some "1.0", 1700000200, "new release", 6)])))
           (stub_rpc (Replied (Some sample_changelog)))
           sample_master 5 w0 _ _ eq_refl eq_refl eq_refl).
Defined.

Lemma fold_changelog_absorb_le changelog extra :
  (∀ row, row ∈ extra →
     ∃ row', row' ∈ changelog ∧ entry_package row' = entry_package row
             ∧ entry_serial row ≤ entry_serial row') →
  foldl changed_packages_step ∅ (changelog ++ extra)
  = foldl changed_packages_step ∅ changelog.
Proof.
  intros Hle. apply map_eq. intros package.
  rewrite !fold_changelog_lookup, serials_of_app, max0_app.
  pose proof (max0_nonneg (serials_of package changelog)) as Hnn.
  assert (max0 (serials_of package extra) ≤ max0 (serials_of package changelog))
    as Hmax.
  { destruct (Z.ltb_spec 0 (max0 (serials_of package extra))) as [Hpos|]; [|lia].
    apply max0_elem, elem_of_serials_of in Hpos as (row & Hrow & Hpkg & <-).
    destruct (Hle row Hrow) as (row' & Hrow' & Hpkg' & Hs).
    etrans; [exact Hs|]. apply max0_upper, elem_of_serials_of.
    exists row'. repeat split; [done|congruence]. }
  by rewrite Z.max_l by lia.
Qed.

(** X12.  Rows that repeat a serial already seen for their package, or
    carry a smaller one, change nothing, wherever they stand among the
    rows: in particular a changelog delivered twice over gives the mapping
    of the changelog itself. *)
Theorem changed_packages_idempotent srv srv' self last_serial w
    changelog changelog' extra :
  srv (xmlrpc_url self) "changelog_since_serial" (rpc_args last_serial)
  = Replied (Some changelog) →
  srv' (xmlrpc_url self) "changelog_since_serial" (rpc_args last_serial)
  = Replied (Some changelog') →
  changelog' ≡ₚ changelog ++ extra →
  (∀ row, row ∈ extra →
     ∃ row', row' ∈ changelog ∧ entry_package row' = entry_package row
             ∧ entry_serial row ≤ entry_serial row') →
  changed_packages srv' self last_serial w
  = changed_packages srv self last_serial w.
Proof.
  intros Hsrv Hsrv' Hperm Hle.
  rewrite !changed_packages_unfold, !rpc_unfold, Hsrv, Hsrv'. simpl.
  by rewrite (fold_changelog_perm _ _ Hperm), fold_changelog_absorb_le.
Qed.

Lemma changed_packages_idempotent_witness :
  changed_packages (stub_rpc (Replied (Some (sample_changelog ++ sample_changelog))))
    sample_master 5 w0
  = changed_packages (stub_rpc (Replied (Some sample_changelog)))
      sample_master 5 w0.
Proof.
  refine (changed_packages_idempotent
            (stub_rpc (Replied (Some sample_changelog)))
            (stub_rpc (Replied (Some (sample_changelog ++ sample_changelog))))
            sample_master 5 w0 sample_changelog
            (sample_changelog ++ sample_changelog) sample_changelog
            eq_refl eq_refl (Permutation_refl _) _).
  intros row Hrow. exists row.
  split; [exact Hrow|]. split; [reflexivity|]. apply Z.le_refl.
Defined.

(** ** Construction *)

(** X13.  The outcome of a construction, case by case.  It raises the
    [ValueError] exactly when the base URL begins with the lower-case
    prefix [http://] and non-https access is not allowed.  For any other
    base URL, whatever its scheme or letter case, it yields a Master
    holding the URL, the per-operation timeout, the two flags and the
    event loop when [asyncio.get_event_loop()] returns a loop, and raises
    the [RuntimeError] of that call when there is none; it raises nothing
    else. *)
Theorem init_outcome env kwargs_of evloop base_url tmo gtmo proxy allow
    mismatch w :
  (startswith base_url "http://" = true ∧ allow = false
   ↔ outcome_of (__init__ env kwargs_of evloop base_url tmo gtmo proxy allow
                   mismatch) w
     = Raise (ValueError ("Master URL " +:+ base_url +:+ " is not https scheme")))
  ∧ (startswith base_url "http://" = false ∨ allow = true →
     (∀ current, evloop = CurrentLoop current →
        ∃ master,
          outcome_of (__init__ env kwargs_of evloop base_url tmo gtmo proxy allow
                        mismatch) w
          = Return master
          ∧ url master = base_url ∧ timeout master = tmo
          ∧ allow_non_https master = allow
          ∧ allow_upstream_serial_mismatch master = mismatch
          ∧ loop master = current)
     ∧ (∀ msg, evloop = NoCurrentLoop msg →
          outcome_of (__init__ env kwargs_of evloop base_url tmo gtmo proxy allow
                        mismatch) w
          = Raise (RuntimeError msg)))
  ∧ (∀ e,
       outcome_of (__init__ env kwargs_of evloop base_url tmo gtmo proxy allow
                     mismatch) w
       = Raise e →
       e = ValueError ("Master URL " +:+ base_url +:+ " is not https scheme")
       ∨ ∃ msg, e = RuntimeError msg ∧ evloop = NoCurrentLoop msg).
Proof.
  unfold outcome_of.
  destruct (init_unfold env kwargs_of evloop base_url tmo gtmo proxy allow mismatch w)
    as [w' ->].
  destruct (startswith base_url "http://") eqn:Hhttp, allow; simpl.
  - split; [split; [by intros [_ [=]]|by destruct evloop]|].
    split; [|destruct evloop; [done|intros e [= <-]; eauto]].
    intros _. split.
    + intros current ->. simpl. eexists. by repeat split.
    + by intros msg ->.
  - split; [done|]. split; [by intros [[=]|[=]]|].
    intros e [= <-]. by left.
  - split; [split; [by intros [[=] _]|by destruct evloop]|].
    split; [|destruct evloop; [done|intros e [= <-]; eauto]].
    intros _. split.
    + intros current ->. simpl. eexists. by repeat split.
    + by intros msg ->.
  - split; [split; [by intros [[=] _]|by destruct evloop]|].
    split; [|destruct evloop; [done|intros e [= <-]; eauto]].
    intros _. split.
    + intros current ->. simpl. eexists. by repeat split.
    + by intros msg ->.
Qed.

Lemma init_outcome_witness :
  (∃ master,
     outcome_of (__init__ None (λ _, ∅) (CurrentLoop sample_loop)
                   "HTTP://pypi.org" default_timeout default_global_timeout
                   default_proxy false false) w0
     = Return master
     ∧ url master = "HTTP://pypi.org" ∧ timeout master = default_timeout
     ∧ allow_non_https master = false
     ∧ allow_upstream_serial_mismatch master = false
     ∧ loop master = sample_loop)
  ∧ outcome_of (__init__ None (λ _, ∅)
                  (NoCurrentLoop "There is no current event loop")
                  "https://pypi.org" default_timeout default_global_timeout
                  default_proxy false false) w0
    = Raise (RuntimeError "There is no current event loop").
Proof.
  split.
  - exact (proj1 (proj1 (proj2 (init_outcome None (λ _, ∅)
                                  (CurrentLoop sample_loop) "HTTP://pypi.org"
                                  default_timeout default_global_timeout
                                  default_proxy false false w0))
                    (or_introl eq_refl))
             sample_loop eq_refl).
  - exact (proj2 (proj1 (proj2 (init_outcome None (λ _, ∅)
                                  (NoCurrentLoop "There is no current event loop")
                                  "https://pypi.org" default_timeout
                                  default_global_timeout default_proxy false
                                  false w0))
                    (or_introl eq_refl))
             "There is no current event loop" eq_refl).
Defined.

(** X14.  The proxy of a Master: a non-empty [proxy] argument is used and
    the environment is ignored; without one ([None] or the empty string)
    the address of the environment is used; with neither, the Master has no
    proxy arguments. *)
Theorem init_proxy_resolution env kwargs_of evloop base_url tmo gtmo proxy allow
    mismatch w master :
  outcome_of (__init__ env kwargs_of evloop base_url tmo gtmo proxy allow mismatch) w
  = Return master →
  (∀ address, proxy = Some address → address ≠ "" →
     proxy_kwargs master = kwargs_of address)
  ∧ (proxy = None ∨ proxy = Some "" →
     (∀ address, env = Some address → address ≠ "" →
        proxy_kwargs master = kwargs_of address)
     ∧ (env = None ∨ env = Some "" → proxy_kwargs master = ∅)).
Proof.
  unfold outcome_of.
  destruct (init_unfold env kwargs_of evloop base_url tmo gtmo proxy allow mismatch w)
    as [w' ->].
  destruct (startswith base_url "http://" && negb allow); [done|].
  destruct evloop as [current|]; [|done].
  simpl. intros [= <-]. simpl. split; [|split].
  - intros address -> Hne. by destruct address.
  - intros address -> Hne.
    destruct H as [-> | ->]; simpl; by destruct address.
  - intros [-> | ->]; by destruct H as [-> | ->].
Qed.

Lemma init_proxy_resolution_witness :
  ∃ master,
    outcome_of (__init__ (Some "http://env-proxy:3128")
                  (λ address, {["proxy" := address]})
                  (CurrentLoop sample_loop)
                  "https://pypi.org" default_timeout default_global_timeout
                  (Some "http://explicit:8080") false false) w0
    = Return master
    ∧ proxy_kwargs master = {["proxy" := "http://explicit:8080"]}.
Proof.
  eexists. split; [reflexivity|].
  refine (proj1 (init_proxy_resolution (Some "http://env-proxy:3128")
                   (λ address, {["proxy" := address]})
                   (CurrentLoop sample_loop)
                   "https://pypi.org" default_timeout default_global_timeout
                   (Some "http://explicit:8080") false false w0 _ eq_refl)
            "http://explicit:8080" eq_refl _).
  intros H. discriminate H.
Defined.

Lemma init_keeps_requests env kwargs_of evloop base_url tmo gtmo proxy allow mismatch w :
  requests (world_after
              (__init__ env kwargs_of evloop base_url tmo gtmo proxy allow mismatch) w)
  = requests w.
Proof.
  unfold world_after, __init__, bind, lift.
  destruct (startswith base_url "http://" && negb allow);
    case_bool_decide; destruct evloop; reflexivity.
Qed.


(** X16.  The global timeout of a constructed Master is never zero, and
    the session opened on it takes that value as the ceiling of the whole
    run and the per-operation timeout for connecting and for reading, and
    raises on error statuses. *)
Theorem init_session_timeouts env kwargs_of evloop base_url tmo gtmo proxy allow
    mismatch w master :
  outcome_of (__init__ env kwargs_of evloop base_url tmo gtmo proxy allow mismatch) w
  = Return master →
  (global_timeout master =? 0)%float = false
  ∧ total (session master) = or_float gtmo FIVE_HOURS_FLOAT
  ∧ sock_connect (session master) = tmo
  ∧ sock_read (session master) = tmo
  ∧ raise_for_status (session master) = true.
Proof.
  unfold outcome_of.
  destruct (init_unfold env kwargs_of evloop base_url tmo gtmo proxy allow mismatch w)
    as [w' ->].
  destruct (startswith base_url "http://" && negb allow); [done|].
  destruct evloop as [current|]; [|done].
  simpl. intros [= <-]. simpl. split; [|done].
  destruct gtmo as [f|]; simpl; [|reflexivity].
  destruct (f =? 0)%float eqn:Hf; simpl; [reflexivity|done].
Qed.

Lemma init_session_timeouts_witness :
  ∃ master,
    outcome_of (__init__ None (λ _, ∅) (CurrentLoop sample_loop) "https://pypi.org" 30%float
                  (Some 0%float) default_proxy false false) w0
    = Return master
    ∧ (global_timeout master =? 0)%float = false
    ∧ total (session master) = FIVE_HOURS_FLOAT
    ∧ sock_connect (session master) = 30%float
    ∧ sock_read (session master) = 30%float
    ∧ raise_for_status (session master) = true.
Proof.
  eexists. split; [reflexivity|].
  exact (init_session_timeouts None (λ _, ∅) (CurrentLoop sample_loop) "https://pypi.org" 30%float
           (Some 0%float) default_proxy false false w0 _ eq_refl).
Defined.

(** ** [url_fetch] *)

Lemma string_app_assoc (a b c : string) : (a +:+ b) +:+ c = a +:+ b +:+ c.
Proof.
  induction a as [|x a IH]; [reflexivity|].
  change (String x ((a +:+ b) +:+ c) = String x (a +:+ b +:+ c)).
  by rewrite IH.
Qed.

Lemma string_app_nil_r (a : string) : a +:+ "" = a.
Proof.
  induction a as [|x a IH]; [reflexivity|].
  change (String x (a +:+ "") = String x a). by rewrite IH.
Qed.

Lemma written_app path calls calls' :
  written path (calls ++ calls') = written path calls +:+ written path calls'.
Proof.
  induction calls as [|c calls IH]; [done|].
  destruct c as [| |path' chunk| |]; simpl; try done.
  destruct (String.eqb path' path); [|done].
  rewrite IH. symmetry. apply string_app_assoc.
Qed.

Lemma written_writes path chunks :
  written path (Write path <$> chunks) = foldr String.app "" chunks.
Proof.
  induction chunks as [|c chunks IH]; [done|].
  rewrite fmap_cons. cbn [written foldr]. by rewrite String.eqb_refl, IH.
Qed.

(** The loop on an operating system that lets every write through. *)
Lemma write_chunks_spec os_error file_path reads s :
  (∀ calls c, os_error calls c = None) →
  write_chunks os_error file_path reads s
  = (match first_failure reads with
     | None => Done tt
     | Some f => Failure (MasterError (exn_of_failure f))
     end,
     IOWorld (net s) (fs_calls s ++ (Write file_path <$> delivered reads))
       (session_calls s)).
Proof.
  intros Hos. revert s.
  induction reads as [|[chunk|f] reads IH]; intros [w calls sess]; simpl.
  - by rewrite app_nil_r.
  - destruct (String.eqb chunk ""); simpl; [by rewrite app_nil_r|].
    unfold io_bind, fs_do. rewrite Hos. simpl. rewrite IH. simpl.
    by rewrite <- app_assoc.
  - by rewrite app_nil_r.
Qed.

(** X17.  When the directory can be made, the server answers with a status
    below 400, every read succeeds and the file system takes every call,
    [url_fetch] writes to [file_path] the chunks of the body, each as it
    was read and in the order read, up to the end of the stream, and closes
    the file.  The URL is requested as given, without the base URL of the
    Master in front, and no serial is asked of the response. *)
Theorem url_fetch_stores_body os_error srv parent content_reads self url
    file_path executor chunk_size s r :
  (∀ calls c, os_error calls c = None) →
  srv url [] = Replied r →
  status r < 400 →
  first_failure (content_reads r chunk_size) = None →
  url_fetch os_error srv parent content_reads self url file_path executor
    chunk_size s
  = (Done tt,
     IOWorld (World (log (net s) ++ [(INFO, "Fetching " +:+ url)])
                    (requests (net s) ++ [(url, [])]))
             (fs_calls s
              ++ [Mkdir executor (parent file_path); OpenWb file_path]
              ++ (Write file_path <$> delivered (content_reads r chunk_size))
              ++ [Close file_path])
             (session_calls s))
  ∧ written file_path
      (fs_calls (io_after (url_fetch os_error srv parent content_reads self url
                             file_path executor chunk_size) s))
    = written file_path (fs_calls s)
      +:+ foldr String.app "" (delivered (content_reads r chunk_size)).
Proof.
  intros Hos Hsrv Hst Hreads.
  match goal with |- ?P ∧ _ => assert P as Hrun end;
    [|split; [exact Hrun|];
      unfold io_after; rewrite Hrun; cbn [snd fs_calls];
      rewrite !written_app, written_writes; cbn [written];
      rewrite string_app_nil_r; reflexivity].
  unfold url_fetch, io_bind, of_master, fs_do, io_with, logging, session_get,
    bind, record_request, await; simpl.
  rewrite !Hos, Hsrv. simpl.
  destruct (Z.leb_spec 400 (status r)); [lia|]. simpl.
  rewrite Hos, (write_chunks_spec _ _ _ _ Hos), Hreads. simpl.
  rewrite Hos. by rewrite <- !app_assoc.
Qed.

Lemma url_fetch_stores_body_witness :
  url_fetch os_fine (stub_http (sample_response [])) (λ _, "/srv/pypi/packages")
    (λ _ _, [Data "PK"; Data "data"; Data ""]) sample_master
    "https://files.example/pkg-a-1.0.whl" "/srv/pypi/packages/pkg-a-1.0.whl"
    None default_chunk_size s0
  = (Done tt,
     IOWorld (World [(INFO, "Fetching https://files.example/pkg-a-1.0.whl")]
                    [("https://files.example/pkg-a-1.0.whl", [])])
             [Mkdir None "/srv/pypi/packages";
              OpenWb "/srv/pypi/packages/pkg-a-1.0.whl";
              Write "/srv/pypi/packages/pkg-a-1.0.whl" "PK";
              Write "/srv/pypi/packages/pkg-a-1.0.whl" "data";
              Close "/srv/pypi/packages/pkg-a-1.0.whl"]
             []).
Proof.
  exact (proj1 (url_fetch_stores_body os_fine (stub_http (sample_response []))
                  (λ _, "/srv/pypi/packages")
                  (λ _ _, [Data "PK"; Data "data"; Data ""]) sample_master
                  "https://files.example/pkg-a-1.0.whl"
                  "/srv/pypi/packages/pkg-a-1.0.whl" None default_chunk_size s0
                  (sample_response []) (λ _ _, eq_refl) eq_refl eq_refl eq_refl)).
Defined.

(** X18.  [url_fetch] opens the file only once the request has been
    answered well.  When the directory cannot be made, no request is
    issued; when the request fails in transport or is answered with a
    status of 400 or more, the exception is raised and the file-system
    trace ends with the [mkdir]: the file is neither opened nor written. *)
Theorem url_fetch_stops_before_open os_error srv parent content_reads self url
    file_path executor chunk_size s :
  (∀ msg,
     os_error (fs_calls s) (Mkdir executor (parent file_path)) = Some msg →
     url_fetch os_error srv parent content_reads self url file_path executor
       chunk_size s
     = (Failure (OSError msg),
        IOWorld (World (log (net s) ++ [(INFO, "Fetching " +:+ url)])
                       (requests (net s)))
                (fs_calls s ++ [Mkdir executor (parent file_path)])
                (session_calls s)))
  ∧ (os_error (fs_calls s) (Mkdir executor (parent file_path)) = None →
     (∀ f, srv url [] = Failed f →
        url_fetch os_error srv parent content_reads self url file_path executor
          chunk_size s
        = (Failure (MasterError (exn_of_failure f)),
           IOWorld (World (log (net s) ++ [(INFO, "Fetching " +:+ url)])
                          (requests (net s) ++ [(url, [])]))
                   (fs_calls s ++ [Mkdir executor (parent file_path)])
                   (session_calls s)))
     ∧ (∀ r, srv url [] = Replied r → 400 ≤ status r →
          url_fetch os_error srv parent content_reads self url file_path
            executor chunk_size s
          = (Failure (MasterError (ClientResponseError (status r) (reason r))),
             IOWorld (World (log (net s) ++ [(INFO, "Fetching " +:+ url)])
                            (requests (net s) ++ [(url, [])]))
                     (fs_calls s ++ [Mkdir executor (parent file_path)])
                   (session_calls s)))).
Proof.
  unfold url_fetch, io_bind, of_master, fs_do, io_with, logging, session_get,
    bind, record_request, await; simpl.
  split; [by intros msg ->|]. intros ->. simpl. split.
  - by intros f ->.
  - intros r -> Hge. simpl. by destruct (Z.leb_spec 400 (status r)); [|lia].
Qed.

Lemma url_fetch_stops_before_open_witness :
  url_fetch os_fine
    (stub_http {| status := 404; reason := "Not Found"; headers := [];
                  content := WrongContentType "text/html" |})
    (λ _, "/srv/pypi/packages") (λ _ _, [Data "PK"]) sample_master
    "https://files.example/gone.whl" "/srv/pypi/packages/gone.whl"
    (Some ThreadPoolExecutor) default_chunk_size s0
  = (Failure (MasterError (ClientResponseError 404 "Not Found")),
     IOWorld (World [(INFO, "Fetching https://files.example/gone.whl")]
                    [("https://files.example/gone.whl", [])])
             [Mkdir (Some ThreadPoolExecutor) "/srv/pypi/packages"]
             []).
Proof.
  exact (proj2 (proj2 (url_fetch_stops_before_open os_fine
                         (stub_http {| status := 404; reason := "Not Found";
                                       headers := [];
                                       content := WrongContentType "text/html" |})
                         (λ _, "/srv/pypi/packages") (λ _ _, [Data "PK"])
                         sample_master "https://files.example/gone.whl"
                         "/srv/pypi/packages/gone.whl" (Some ThreadPoolExecutor)
                         default_chunk_size s0)
                  eq_refl)
           _ eq_refl ltac:(discriminate)).
Defined.



(** ** [async_main] *)

(** X20.  [async_main] constructs the Master of the [delete] operation
    without allowing non-https access: when the configured master URL
    begins with [http://] the run ends with the [ValueError] of the
    constructor before any session is opened, no request, no file-system
    call and no call on a session is made, and [delete_packages] is not
    run (the result is the same whatever [delete_packages] is). *)
Theorem async_main_delete_rejects_http os_error path_exists env kwargs_of evloop
    delete_packages metadata_verify mirror status_file_of tmp_status_file
    args config s mismatch master_url tmo gtmo :
  lower_str (op args) = "delete" →
  config_getboolean config "mirror" "allow-upstream-serial-mismatch" false
  = Done mismatch →
  config_get config "mirror" "master" = Done master_url →
  config_getfloat config "mirror" "timeout" = Done tmo →
  config_getfloat_or_none config "mirror" "global-timeout" = Done gtmo →
  startswith master_url "http://" = true →
  io_outcome (async_main os_error path_exists env kwargs_of evloop delete_packages
                metadata_verify mirror status_file_of tmp_status_file
                args config) s
  = Failure (MasterError
               (ValueError ("Master URL " +:+ master_url
                            +:+ " is not https scheme")))
  ∧ fs_calls (io_after (async_main os_error path_exists env kwargs_of evloop
                          delete_packages metadata_verify mirror
                          status_file_of tmp_status_file args config) s)
    = fs_calls s
  ∧ requests (net (io_after (async_main os_error path_exists env kwargs_of evloop
                               delete_packages metadata_verify mirror
                               status_file_of tmp_status_file args config) s))
    = requests (net s)
  ∧ session_calls (io_after (async_main os_error path_exists env kwargs_of
                               evloop delete_packages metadata_verify mirror
                               status_file_of tmp_status_file args config) s)
    = session_calls s
  ∧ ∀ delete_packages',
      async_main os_error path_exists env kwargs_of evloop delete_packages'
        metadata_verify mirror status_file_of tmp_status_file args config s
      = async_main os_error path_exists env kwargs_of evloop delete_packages
          metadata_verify mirror status_file_of tmp_status_file args config s.
Proof.
  intros Hop Hbool Hurl Htmo Hgtmo Hhttp.
  assert (Hrun : ∀ dp, ∃ w',
    async_main os_error path_exists env kwargs_of evloop dp metadata_verify mirror
      status_file_of tmp_status_file args config s
    = (Failure (MasterError
                  (ValueError ("Master URL " +:+ master_url
                               +:+ " is not https scheme"))),
       IOWorld w' (fs_calls s) (session_calls s))
    ∧ requests w' = requests (net s)
    ∧ w' = world_after (__init__ env kwargs_of evloop master_url tmo gtmo default_proxy
                          default_allow_non_https mismatch) (net s)).
  { intros dp. unfold async_main. rewrite Hop. simpl.
    unfold async_with_master, io_bind, of_result, of_master.
    rewrite Hbool, Hurl, Htmo, Hgtmo. simpl.
    pose proof (init_keeps_requests env kwargs_of evloop master_url tmo gtmo
                  default_proxy default_allow_non_https mismatch (net s))
      as Hreq.
    unfold world_after in *.
    destruct (init_unfold env kwargs_of evloop master_url tmo gtmo default_proxy
                default_allow_non_https mismatch (net s)) as [w' Hinit].
    rewrite Hhttp in Hinit. simpl in Hinit. rewrite Hinit in *. simpl in *.
    eexists. split; [reflexivity|]. split; [exact Hreq|reflexivity]. }
  destruct (Hrun delete_packages) as (w' & Heq & Hreq & Hw').
  unfold io_outcome, io_after. rewrite Heq. simpl.
  split; [done|]. split; [done|]. split; [done|]. split; [done|].
  intros dp. destruct (Hrun dp) as (w'' & Heq' & _ & Hw'').
  rewrite Heq'. by rewrite Hw'', <- Hw'.
Qed.

Lemma async_main_delete_rejects_http_witness :
  io_outcome (async_main os_fine (λ _ _, false) None (λ _, ∅) (CurrentLoop sample_loop)
                (λ _ _ _, io_ret 0) (λ _ _, io_ret 0) (λ _ _, io_ret 0)
                (λ directory, Done (directory +:+ "/status")) "/tmp/status"
                (sample_args "Delete") (sample_config "http://pypi.org")) s0
  = Failure (MasterError
               (ValueError "Master URL http://pypi.org is not https scheme")).
Proof.
  exact (proj1 (async_main_delete_rejects_http os_fine (λ _ _, false) None
                  (λ _, ∅) (CurrentLoop sample_loop) (λ _ _ _, io_ret 0) (λ _ _, io_ret 0)
                  (λ _ _, io_ret 0)
                  (λ directory, Done (directory +:+ "/status")) "/tmp/status"
                  (sample_args "Delete") (sample_config "http://pypi.org") s0
                  false "http://pypi.org" 10%float None
                  eq_refl eq_refl eq_refl eq_refl eq_refl eq_refl)).
Defined.

(** X21.  In the [delete] operation the session of the Master is opened
    before [delete_packages] runs and closed however it ends: its return
    value or its exception is the result of [async_main], and after
    everything [delete_packages] did come the debug record of [__aexit__],
    the [close] of the session and the wait of a tenth of a second. *)
Theorem async_main_delete_closes_session os_error path_exists env kwargs_of evloop
    delete_packages metadata_verify mirror status_file_of tmp_status_file
    args config s mismatch master_url tmo gtmo master w1 result s3 :
  lower_str (op args) = "delete" →
  config_getboolean config "mirror" "allow-upstream-serial-mismatch" false
  = Done mismatch →
  config_get config "mirror" "master" = Done master_url →
  config_getfloat config "mirror" "timeout" = Done tmo →
  config_getfloat_or_none config "mirror" "global-timeout" = Done gtmo →
  __init__ env kwargs_of evloop master_url tmo gtmo default_proxy
    default_allow_non_https mismatch (net s) = (Return master, w1) →
  delete_packages config args master
    (IOWorld (World (log w1 ++ [(DEBUG, "Initializing Master's aiohttp ClientSession")])
                    (requests w1))
             (fs_calls s)
             (session_calls s ++ [OpenSession (session master)]))
  = (result, s3) →
  async_main os_error path_exists env kwargs_of evloop delete_packages
    metadata_verify mirror status_file_of tmp_status_file args config s
  = (result,
     IOWorld (World (log (net s3)
                     ++ [(DEBUG, "Closing Master's aiohttp ClientSession and waiting 0.1 seconds")])
                    (requests (net s3)))
             (fs_calls s3)
             (session_calls s3
              ++ [CloseSession; Sleep 0x1.999999999999ap-4%float])).
Proof.
  intros Hop Hbool Hurl Htmo Hgtmo Hinit Hdelete.
  unfold async_main. rewrite Hop. simpl.
  unfold async_with_master, io_bind, of_result, of_master, io_with, __aexit__,
    __aenter__, io_bind, of_master, session_do, io_ret, logging.
  rewrite Hbool, Hurl, Htmo, Hgtmo. simpl. rewrite Hinit. simpl.
  rewrite Hdelete. simpl. rewrite <- app_assoc. by destruct result.
Qed.

Lemma async_main_delete_closes_session_witness :
  async_main os_fine (λ _ _, false) None (λ _, ∅) (CurrentLoop sample_loop)
    (λ _ _ _, io_raise (OtherError "RuntimeError" "boom"))
    (λ _ _, io_ret 0) (λ _ _, io_ret 0)
    (λ directory, Done (directory +:+ "/status")) "/tmp/status"
    (sample_args "delete") (sample_config "https://pypi.org") s0
  = (Failure (OtherError "RuntimeError" "boom"),
     IOWorld (World [(DEBUG, "Initializing Master's aiohttp ClientSession");
                     (DEBUG, "Closing Master's aiohttp ClientSession and waiting 0.1 seconds")]
                    [])
             []
             [OpenSession {| total := FIVE_HOURS_FLOAT;
                             sock_connect := 10%float;
                             sock_read := 10%float;
                             raise_for_status := true;
                             session_kwargs := ∅ |};
              CloseSession; Sleep 0x1.999999999999ap-4%float]).
Proof.
  exact (async_main_delete_closes_session os_fine (λ _ _, false) None (λ _, ∅)
           (CurrentLoop sample_loop)
           (λ _ _ _, io_raise (OtherError "RuntimeError" "boom"))
           (λ _ _, io_ret 0) (λ _ _, io_ret 0)
           (λ directory, Done (directory +:+ "/status")) "/tmp/status"
           (sample_args "delete") (sample_config "https://pypi.org") s0
           false "https://pypi.org" 10%float None _ _ _ _
           eq_refl eq_refl eq_refl eq_refl eq_refl eq_refl eq_refl).
Defined.


